(** * Enrollment manager (Lab_8/app.py): a shallow embedding and its properties

    The Flask application keeps five tables (users, courses, enrollments,
    grades, teacher_courses) and serves role-gated routes.  The tables are
    modelled as lists of rows in insertion order, a request handler as a
    function from a request and the current world (database and client
    session) to a reply and the next world.  Requests are served one after
    the other: the model is sequential. *)

From Stdlib Require Import ZArith List String Ascii Bool Lia DecimalString.
From Stdlib Require Import SpecFloat.
Import ListNotations.

Open Scope string_scope.
Open Scope Z_scope.

(** ** Python values used by the routes *)

(** [str(n)] for an integer, as used inside f-strings. *)
Definition str_int (n : Z) : string := NilZero.string_of_int (Z.to_int n).

(** Python floats are binary64 values; [spec_float] is their inductive
    description.  Comparisons follow IEEE 754: every comparison with NaN
    is false. *)
Definition float := spec_float.

(** [float(0)], the conversion of the integer default. *)
Definition float_0 : float := S754_zero false.
(** The integer bounds of the range check, converted for the comparison. *)
Definition float_100 : float := S754_finite false 7036874417766400 (-46).

(** [a < b] and [a > b] on floats. *)
Definition float_lt (a b : float) : bool := SFltb a b.
Definition float_gt (a b : float) : bool := SFltb b a.

(** Code points that [str.isspace] accepts, below 256 (strings are modelled
    as sequences of such code points). *)
Definition isspace (c : ascii) : bool :=
  let n := N.to_nat (N_of_ascii c) in
  ((9 <=? n) && (n <=? 13))%nat || ((28 <=? n) && (n <=? 32))%nat
  || (n =? 133)%nat || (n =? 160)%nat.

Fixpoint lstrip (s : string) : string :=
  match s with
  | String c s' => if isspace c then lstrip s' else s
  | EmptyString => EmptyString
  end.

Fixpoint rstrip (s : string) : string :=
  match s with
  | String c s' =>
      match rstrip s' with
      | EmptyString => if isspace c then EmptyString else String c EmptyString
      | r => String c r
      end
  | EmptyString => EmptyString
  end.

(** [s.strip()] *)
Definition strip (s : string) : string := rstrip (lstrip s).

(** ** Database models *)

Module User.
Record t := mk
  { id : Z; username : string; password_hash : string; role : string }.
End User.

Module Course.
Record t := mk
  { id : Z; name : string; department : string; capacity : Z }.
End Course.

Module Enrollment.
Record t := mk { id : Z; user_id : Z; course_id : Z }.
End Enrollment.

Module Grade.
Record t := mk { id : Z; enrollment_id : Z; grade_value : float }.
End Grade.

Module TeacherCourse.
Record t := mk { id : Z; teacher_id : Z; course_id : Z }.
End TeacherCourse.

(** The committed contents of the database. *)
Record store := mk_store
  { users : list User.t;
    courses : list Course.t;
    enrollments : list Enrollment.t;
    grades : list Grade.t;
    teacher_courses : list TeacherCourse.t }.

Definition set_enrollments (st : store) (l : list Enrollment.t) : store :=
  {| users := users st; courses := courses st; enrollments := l;
     grades := grades st; teacher_courses := teacher_courses st |}.

Definition set_grades (st : store) (l : list Grade.t) : store :=
  {| users := users st; courses := courses st; enrollments := enrollments st;
     grades := l; teacher_courses := teacher_courses st |}.

(** The row id an INTEGER PRIMARY KEY column receives on insert: one more
    than the largest id present, 1 in an empty table.  (At the largest
    64-bit id SQLite picks an unused id instead; no request leads there.) *)
Definition next_id (ids : list Z) : Z :=
  match ids with
  | [] => 1
  | i :: rest => 1 + fold_left Z.max rest i
  end.

(** *** Queries *)

(** [Query.first()] *)
Definition first {A : Type} (rows : list A) : option A := hd_error rows.

(** [User.query.filter_by(username=...)] *)
Definition users_by_username (st : store) (username : string) : list User.t :=
  filter (fun u => String.eqb (User.username u) username) (users st).

(** [Course.query.get(course_id)] *)
Definition Course_get (st : store) (course_id : Z) : option Course.t :=
  find (fun c => Course.id c =? course_id) (courses st).

(** [Enrollment.query.get(enrollment_id)] *)
Definition Enrollment_get (st : store) (enrollment_id : Z)
  : option Enrollment.t :=
  find (fun e => Enrollment.id e =? enrollment_id) (enrollments st).

(** [Enrollment.query.filter_by(user_id=..., course_id=...)] *)
Definition enrollments_by_user_course (st : store) (user_id course_id : Z)
  : list Enrollment.t :=
  filter (fun e => (Enrollment.user_id e =? user_id)
                   && (Enrollment.course_id e =? course_id))
         (enrollments st).

(** [TeacherCourse.query.filter_by(teacher_id=..., course_id=...)] *)
Definition teacher_courses_by (st : store) (teacher_id course_id : Z)
  : list TeacherCourse.t :=
  filter (fun tc => (TeacherCourse.teacher_id tc =? teacher_id)
                    && (TeacherCourse.course_id tc =? course_id))
         (teacher_courses st).

(** The relationship [Course.enrollments]. *)
Definition Course_enrollments (st : store) (self : Course.t)
  : list Enrollment.t :=
  filter (fun e => Enrollment.course_id e =? Course.id self) (enrollments st).

(** The relationship [Enrollment.grade] ([uselist=False]). *)
Definition Enrollment_grade (st : store) (self : Enrollment.t)
  : option Grade.t :=
  find (fun g => Grade.enrollment_id g =? Enrollment.id self) (grades st).

(** [Course.get_enrollment_count] *)
Definition get_enrollment_count (st : store) (self : Course.t) : Z :=
  Z.of_nat (List.length (Course_enrollments st self)).

(** [Course.is_full] *)
Definition is_full (st : store) (self : Course.t) : bool :=
  get_enrollment_count st self >=? Course.capacity self.

(** *** Writes *)

(** What the column [grade_value] (Float, nullable=False) keeps of a float
    bound to it, as SQLite does: NaN is bound as NULL and violates NOT NULL,
    so the commit raises IntegrityError ([None]); a zero of either sign is
    kept as +0.0; every other value is kept as it is. *)
Definition stored_grade_value (v : float) : option float :=
  match v with
  | S754_nan => None
  | S754_zero _ => Some (S754_zero false)
  | _ => Some v
  end.

(** [db.session.add(Enrollment(user_id=..., course_id=...))] then commit. *)
Definition add_enrollment (st : store) (user_id course_id : Z) : store :=
  set_enrollments st
    (enrollments st ++
     [Enrollment.mk (next_id (map Enrollment.id (enrollments st)))
                    user_id course_id])%list.

(** [db.session.add(Grade(enrollment_id=..., grade_value=...))] then commit,
    for a value [v] the column keeps (see [stored_grade_value]). *)
Definition add_grade (st : store) (enrollment_id : Z) (v : float) : store :=
  set_grades st
    (grades st ++
     [Grade.mk (next_id (map Grade.id (grades st))) enrollment_id v])%list.

(** [grade.grade_value = v] then commit, for a value [v] the column keeps:
    the row with that id is updated. *)
Definition update_grade_value (st : store) (g : Grade.t) (v : float) : store :=
  set_grades st
    (map (fun g' => if Grade.id g' =? Grade.id g
                    then Grade.mk (Grade.id g') (Grade.enrollment_id g') v
                    else g')
         (grades st)).

(** [db.session.delete(enrollment)] then commit.  The relationship
    [Enrollment.grade] cascades ('all, delete-orphan'): the grade it loads
    is deleted with the enrollment. *)
Definition delete_enrollment (st : store) (e : Enrollment.t) : store :=
  let gs :=
    match Enrollment_grade st e with
    | Some g => filter (fun g' => negb (Grade.id g' =? Grade.id g)) (grades st)
    | None => grades st
    end in
  {| users := users st; courses := courses st;
     enrollments :=
       filter (fun e' => negb (Enrollment.id e' =? Enrollment.id e))
              (enrollments st);
     grades := gs; teacher_courses := teacher_courses st |}.

(** ** Requests, sessions, replies *)

(** The Flask session of one client.  [login] writes its keys
    ('logged_in', 'user_id', 'username', 'role') together and [logout]
    clears them all; nothing else writes the session, so it is either empty
    or holds the three values next to [logged_in = True]. *)
Record session_data := mk_session
  { s_user_id : Z; s_username : string; s_role : string }.

Definition session := option session_data.

(** [session.get('logged_in')] as a truth value. *)
Definition logged_in (s : session) : bool :=
  match s with Some _ => true | None => false end.

(** A request: its method and its form fields in the order sent. *)
Record request := mk_request
  { method : string; form : list (string * string) }.

(** [request.form.get(key)]: the first value sent under [key]. *)
Fixpoint form_get (f : list (string * string)) (key : string)
  : option string :=
  match f with
  | [] => None
  | (k, v) :: rest => if String.eqb k key then Some v else form_get rest key
  end.

(** Targets of [url_for]. *)
Inductive endpoint :=
| ep_login
| ep_index
| ep_student_courses
| ep_student_add
| ep_teacher_courses
| ep_teacher_course_detail (course_id : Z).

Inductive response :=
| redirect (target : endpoint)
| render_template (template : string)
| abort (code : Z).

(** What the client receives: the messages flashed while the request was
    served, as (message, category), and the response. *)
Record reply := mk_reply
  { flashed : list (string * string); body : response }.

Record world := mk_world { db : store; sess : session }.

Definition set_db (w : world) (st : store) : world :=
  {| db := st; sess := sess w |}.

Definition view := request -> world -> reply * world.

(** [flash(message, category)] followed by [return r]. *)
Definition flash_return (message category : string) (r : response) : reply :=
  {| flashed := [(message, category)]; body := r |}.

(** ** Authentication decorators *)

(** [login_required] *)
Definition login_required (f : view) : view := fun req w =>
  if negb (logged_in (sess w)) then
    (flash_return "Please log in to access this page." "warning"
       (redirect ep_login), w)
  else f req w.

(** [role_required], given the allowed roles.  The decorated function reads
    [session.get('user_id')] itself; here it receives the session values the
    decorator has just found. *)
Definition role_required (allowed_roles : list string)
    (f : session_data -> view) : view := fun req w =>
  match sess w with
  | None =>
      (flash_return "Please log in to access this page." "warning"
         (redirect ep_login), w)
  | Some s =>
      if negb (existsb (String.eqb (s_role s)) allowed_roles) then
        (flash_return "You do not have permission to access this page."
           "danger" (redirect ep_index), w)
      else f s req w
  end.

(** ** Replies of the ledger routes, named after the conditions they report *)

Definition reply_already_enrolled : reply :=
  flash_return "You are already enrolled in this course." "warning"
    (redirect ep_student_add).

Definition reply_course_full (st : store) (course : Course.t) : reply :=
  flash_return
    ("Cannot enroll: " ++ Course.name course ++ " is full ("
     ++ str_int (get_enrollment_count st course) ++ "/"
     ++ str_int (Course.capacity course) ++ ").")
    "danger" (redirect ep_student_add).

Definition reply_enrolled (course : Course.t) : reply :=
  flash_return ("Successfully enrolled in " ++ Course.name course ++ "!")
    "success" (redirect ep_student_courses).

Definition reply_dropped (course_name : string) : reply :=
  flash_return ("Successfully dropped " ++ course_name ++ ".")
    "success" (redirect ep_student_courses).

Definition reply_enrollment_not_found : reply :=
  flash_return "Enrollment not found." "danger" (redirect ep_student_courses).

Definition reply_grade_forbidden : reply :=
  flash_return "You do not have permission to edit grades for this course."
    "danger" (redirect ep_teacher_courses).

Definition reply_grade_out_of_range (course_id : Z) : reply :=
  flash_return "Grade must be between 0 and 100." "danger"
    (redirect (ep_teacher_course_detail course_id)).

Definition reply_grade_invalid (course_id : Z) : reply :=
  flash_return "Invalid grade value." "danger"
    (redirect (ep_teacher_course_detail course_id)).

Definition reply_grade_updated (course_id : Z) : reply :=
  flash_return "Grade updated successfully." "success"
    (redirect (ep_teacher_course_detail course_id)).

Definition reply_login_required_fields : reply :=
  flash_return "Username and password are required." "danger"
    (render_template "login.html").

Definition reply_login_invalid : reply :=
  flash_return "Invalid username or password." "danger"
    (render_template "login.html").

Definition reply_welcome (username : string) : reply :=
  flash_return ("Welcome, " ++ username ++ "!") "success" (redirect ep_index).

(** [get_or_404] on a missing row. *)
Definition reply_404 : reply := {| flashed := []; body := abort 404 |}.

(** A reply reports a failure when it aborts or flashes a 'danger' or
    'warning' message. *)
Definition is_error (r : reply) : bool :=
  match body r with
  | abort _ => true
  | _ => existsb (fun m => String.eqb (snd m) "danger"
                           || String.eqb (snd m) "warning") (flashed r)
  end.

Definition reply_500 : reply := {| flashed := []; body := abort 500 |}.
Definition reply_405 : reply := {| flashed := []; body := abort 405 |}.

(** ** Route handlers *)

Section Routes.

(** werkzeug's [check_password_hash(pwhash, password)]. *)
Variable check_password_hash : string -> string -> bool.

(** Python's [float] on a string; [None] stands for ValueError. *)
Variable float_of_str : string -> option float.

(** [float(request.form.get('grade', 0))] *)
Definition form_grade (req : request) : option float :=
  match form_get (form req) "grade" with
  | None => Some float_0
  | Some s => float_of_str s
  end.

(** [request.form.get(key, '').strip()] *)
Definition form_field (req : request) (key : string) : string :=
  strip (match form_get (form req) key with Some v => v | None => "" end).

(** [login], reached with GET or POST. *)
Definition login : view := fun req w =>
  if String.eqb (method req) "POST" then
    let username := form_field req "username" in
    let password := form_field req "password" in
    if String.eqb username "" || String.eqb password "" then
      (reply_login_required_fields, w)
    else
      match first (users_by_username (db w) username) with
      | Some user =>
          if check_password_hash (User.password_hash user) password then
            (reply_welcome (User.username user),
             {| db := db w;
                sess := Some (mk_session (User.id user) (User.username user)
                                         (User.role user)) |})
          else (reply_login_invalid, w)
      | None => (reply_login_invalid, w)
      end
  else ({| flashed := []; body := render_template "login.html" |}, w).

(** [logout] *)
Definition logout : view := fun req w =>
  (flash_return "You have been logged out." "info" (redirect ep_login),
   {| db := db w; sess := None |}).

(** [student_enroll] *)
Definition student_enroll (course_id : Z) : view :=
  login_required (role_required ["student"] (fun s req w =>
    let user_id := s_user_id s in
    match Course_get (db w) course_id with
    | None => (reply_404, w)
    | Some course =>
        match first (enrollments_by_user_course (db w) user_id course_id) with
        | Some existing_enrollment => (reply_already_enrolled, w)
        | None =>
            if is_full (db w) course then
              (reply_course_full (db w) course, w)
            else
              (reply_enrolled course,
               set_db w (add_enrollment (db w) user_id course_id))
        end
    end)).

(** [student_drop].  [enrollment.course.name] is read before the delete;
    with no course row behind the enrollment the attribute access raises
    and the request ends in a server error. *)
Definition student_drop (course_id : Z) : view :=
  login_required (role_required ["student"] (fun s req w =>
    let user_id := s_user_id s in
    match first (enrollments_by_user_course (db w) user_id course_id) with
    | Some enrollment =>
        match Course_get (db w) (Enrollment.course_id enrollment) with
        | Some course =>
            (reply_dropped (Course.name course),
             set_db w (delete_enrollment (db w) enrollment))
        | None => (reply_500, w)
        end
    | None => (reply_enrollment_not_found, w)
    end)).

(** [teacher_edit_grade].  The commit after the write raises when the
    grade is NaN: the request then ends in a server error and the
    transaction is rolled back. *)
Definition teacher_edit_grade (enrollment_id : Z) : view :=
  login_required (role_required ["teacher"] (fun s req w =>
    let teacher_id := s_user_id s in
    match Enrollment_get (db w) enrollment_id with
    | None => (reply_404, w)
    | Some enrollment =>
        let course_id := Enrollment.course_id enrollment in
        match first (teacher_courses_by (db w) teacher_id course_id) with
        | None => (reply_grade_forbidden, w)
        | Some teacher_course =>
            match form_grade req with
            | None => (reply_grade_invalid course_id, w)
            | Some grade_value =>
                if float_lt grade_value float_0
                   || float_gt grade_value float_100 then
                  (reply_grade_out_of_range course_id, w)
                else
                  match stored_grade_value grade_value with
                  | None => (reply_500, w)
                  | Some stored =>
                      (reply_grade_updated course_id,
                       set_db w
                         match Enrollment_grade (db w) enrollment with
                         | Some grade =>
                             update_grade_value (db w) grade stored
                         | None => add_grade (db w) enrollment_id stored
                         end)
                  end
            end
        end
    end)).

(** *** Routing *)

(** The rules of the application itself.  The views Flask-Admin registers
    under /admin, through which an 'admin' session edits every table, are
    not among them. *)
Inductive route :=
| r_login
| r_logout
| r_student_enroll (course_id : Z)
| r_student_drop (course_id : Z)
| r_teacher_edit_grade (enrollment_id : Z).

(** A rule that allows GET also answers HEAD. *)
Definition is_get (m : string) : bool :=
  String.eqb m "GET" || String.eqb m "HEAD".

(** A view registered with [methods=['POST']]. *)
Definition post_only (f : view) : view := fun req w =>
  if String.eqb (method req) "POST" then f req w else (reply_405, w).

(** The converter [<int:...>] of a rule matches digits only: with a
    negative id no rule matches and the answer is 404. *)
Definition int_rule (id : Z) (f : view) : view := fun req w =>
  if id <? 0 then (reply_404, w) else f req w.

(** [app.route]: the view behind each rule, with its allowed methods. *)
Definition dispatch (r : route) : view :=
  match r with
  | r_login => fun req w =>
      if is_get (method req) || String.eqb (method req) "POST"
      then login req w else (reply_405, w)
  | r_logout => fun req w =>
      if is_get (method req) then logout req w else (reply_405, w)
  | r_student_enroll course_id =>
      int_rule course_id (post_only (student_enroll course_id))
  | r_student_drop course_id =>
      int_rule course_id (post_only (student_drop course_id))
  | r_teacher_edit_grade enrollment_id =>
      int_rule enrollment_id (post_only (teacher_edit_grade enrollment_id))
  end.

(** One request of some client: the session it presents, the rule it
    hits, what it sends. *)
Record call := mk_call { cookie : session; target : route; sent : request }.

Definition serve (st : store) (c : call) : reply * world :=
  dispatch (target c) (sent c) {| db := st; sess := cookie c |}.

(** The database after a sequence of requests served in order. *)
Definition run (st : store) (cs : list call) : store :=
  fold_left (fun st' c => db (snd (serve st' c))) cs st.

End Routes.

(** ** Ledger observations and database constraints *)

(** The student has a row in the course. *)
Definition is_enrolled (st : store) (user_id course_id : Z) : bool :=
  existsb (fun e => (Enrollment.user_id e =? user_id)
                    && (Enrollment.course_id e =? course_id))
          (enrollments st).

(** The grade rows that reference an enrollment id. *)
Definition grades_of (st : store) (enrollment_id : Z) : list Grade.t :=
  filter (fun g => Grade.enrollment_id g =? enrollment_id) (grades st).

(** The key of the constraint [unique_enrollment]. *)
Definition enrollment_key (e : Enrollment.t) : Z * Z :=
  (Enrollment.user_id e, Enrollment.course_id e).

(** [UniqueConstraint('user_id', 'course_id', name='unique_enrollment')]:
    at most one enrollment row for each (student, course) pair. *)
Definition unique_enrollment (st : store) : Prop :=
  forall user_id course_id,
    (List.length (enrollments_by_user_course st user_id course_id) <= 1)%nat.

(** [Grade.enrollment_id] is declared [unique=True]: at most one grade row
    for each enrollment id. *)
Definition unique_grade_enrollment (st : store) : Prop :=
  forall enrollment_id,
    (List.length (grades_of st enrollment_id) <= 1)%nat.

(** The capacity invariant of one course. *)
Definition within_capacity (st : store) (c : Course.t) : Prop :=
  get_enrollment_count st c <= Course.capacity c.

(** What the schema declares: primary keys, the two unique constraints and
    the foreign keys of enrollments and grades. *)
Record constraints (st : store) : Prop := mk_constraints
  { course_pk : NoDup (map Course.id (courses st));
    enrollment_pk : NoDup (map Enrollment.id (enrollments st));
    grade_pk : NoDup (map Grade.id (grades st));
    enrollment_unique : unique_enrollment st;
    grade_unique : unique_grade_enrollment st;
    enrollment_course_fk :
      forall e, In e (enrollments st) ->
                In (Enrollment.course_id e) (map Course.id (courses st));
    grade_enrollment_fk :
      forall g, In g (grades st) ->
                In (Grade.enrollment_id g)
                   (map Enrollment.id (enrollments st)) }.

(** Some row of the enrollments table links the student to the course. *)
Definition enrolled_in (st : store) (user_id course_id : Z) : Prop :=
  exists e, In e (enrollments st) /\ Enrollment.user_id e = user_id
            /\ Enrollment.course_id e = course_id.

(** Foreign key of grades: every grade row references an existing
    enrollment row. *)
Definition grades_reference_enrollments (st : store) : Prop :=
  forall g, In g (grades st) ->
            In (Grade.enrollment_id g) (map Enrollment.id (enrollments st)).

(** Some row of teacher_courses assigns the teacher to the course. *)
Definition teaches (st : store) (teacher_id course_id : Z) : Prop :=
  exists tc, In tc (teacher_courses st)
             /\ TeacherCourse.teacher_id tc = teacher_id
             /\ TeacherCourse.course_id tc = course_id.

(** The row an in-place overwrite leaves for a grade row. *)
Definition overwritten (g : Grade.t) (v : float) : Grade.t :=
  Grade.mk (Grade.id g) (Grade.enrollment_id g) v.

(** The write committed by a successful grade edit
    (the branch on [enrollment.grade] of [teacher_edit_grade]). *)
Definition upsert_grade (st : store) (e : Enrollment.t) (v : float) : store :=
  match Enrollment_grade st e with
  | Some grade => update_grade_value st grade v
  | None => add_grade st (Enrollment.id e) v
  end.

(** The values of the grade rows that reference an enrollment id. *)
Definition grade_values (st : store) (enrollment_id : Z) : list float :=
  map Grade.grade_value (grades_of st enrollment_id).

(** ** The writes a request can commit *)

(** Every request leaves the database as it was or commits exactly one of
    four writes, each under the condition its route has checked. *)
Inductive store_step (st : store) : store -> Prop :=
| step_none : store_step st st
| step_enroll (user_id course_id : Z) (course : Course.t) :
    Course_get st course_id = Some course ->
    is_enrolled st user_id course_id = false ->
    is_full st course = false ->
    store_step st (add_enrollment st user_id course_id)
| step_drop (e : Enrollment.t) :
    In e (enrollments st) ->
    store_step st (delete_enrollment st e)
| step_grade_update (e : Enrollment.t) (g : Grade.t) (v : float) :
    In e (enrollments st) ->
    Enrollment_grade st e = Some g ->
    store_step st (update_grade_value st g v)
| step_grade_add (e : Enrollment.t) (v : float) :
    In e (enrollments st) ->
    Enrollment_grade st e = None ->
    store_step st (add_grade st (Enrollment.id e) v).

(** Reflexive-transitive closure, for sequences of requests. *)
Inductive store_steps (st : store) : store -> Prop :=
| steps_refl : store_steps st st
| steps_snoc (st1 st2 : store) :
    store_steps st st1 -> store_step st1 st2 -> store_steps st st2.

Ltac case_split :=
  match goal with
  | |- context [match ?x with _ => _ end] => destruct x eqn:?
  end.

(** ** Initial data *)

(** Grades written in [init_db] and the boundary values of the range check,
    each the binary64 value nearest to its decimal literal. *)
Definition float_85_5 : float := S754_finite false 6016527627190272 (-46).
Definition float_92_0 : float := S754_finite false 6473924464345088 (-46).
Definition float_78_5 : float := S754_finite false 5523946417946624 (-46).
Definition float_neg_0_01 : float := S754_finite true 5764607523034235 (-59).
Definition float_100_01 : float := S754_finite false 7037578105208177 (-46).
Definition float_nan : float := S754_nan.

Definition empty_store : store :=
  {| users := []; courses := []; enrollments := []; grades := [];
     teacher_courses := [] |}.

(** [db.session.add(User(...))]: the store and the id given to the row. *)
Definition add_user (st : store) (username password_hash role : string)
  : store * Z :=
  let i := next_id (map User.id (users st)) in
  ({| users := (users st ++ [User.mk i username password_hash role])%list;
      courses := courses st; enrollments := enrollments st;
      grades := grades st; teacher_courses := teacher_courses st |}, i).

(** [db.session.add(Course(...))] *)
Definition add_course (st : store) (name department : string) (capacity : Z)
  : store * Z :=
  let i := next_id (map Course.id (courses st)) in
  ({| users := users st;
      courses := (courses st ++ [Course.mk i name department capacity])%list;
      enrollments := enrollments st; grades := grades st;
      teacher_courses := teacher_courses st |}, i).

(** [db.session.add(TeacherCourse(...))] *)
Definition add_teacher_course (st : store) (teacher_id course_id : Z) : store :=
  {| users := users st; courses := courses st;
     enrollments := enrollments st; grades := grades st;
     teacher_courses :=
       (teacher_courses st ++
        [TeacherCourse.mk (next_id (map TeacherCourse.id (teacher_courses st)))
                          teacher_id course_id])%list |}.

(** The id of the row [add_enrollment] is about to insert. *)
Definition new_enrollment_id (st : store) : Z :=
  next_id (map Enrollment.id (enrollments st)).

Section InitDb.

(** werkzeug's [generate_password_hash]. *)
Variable generate_password_hash : string -> string.

(** [init_db]: sample data, unless a user exists already. *)
Definition init_db (st : store) : store :=
  if (0 <? List.length (users st))%nat then st else
  let '(st, admin_user) :=
    add_user st "admin" (generate_password_hash "admin123") "admin" in
  let '(st, student1) :=
    add_user st "student1" (generate_password_hash "student123") "student" in
  let '(st, student2) :=
    add_user st "student2" (generate_password_hash "student123") "student" in
  let '(st, teacher1) :=
    add_user st "teacher1" (generate_password_hash "teacher123") "teacher" in
  let '(st, course1) :=
    add_course st "Introduction to Computer Science" "CS" 30 in
  let '(st, course2) := add_course st "Data Structures" "CS" 25 in
  let '(st, course3) := add_course st "Web Development" "CS" 20 in
  let st := add_teacher_course st teacher1 course1 in
  let st := add_teacher_course st teacher1 course2 in
  let enrollment1 := new_enrollment_id st in
  let st := add_enrollment st student1 course1 in
  let enrollment2 := new_enrollment_id st in
  let st := add_enrollment st student1 course2 in
  let enrollment3 := new_enrollment_id st in
  let st := add_enrollment st student2 course1 in
  let st := add_grade st enrollment1 float_85_5 in
  let st := add_grade st enrollment2 float_92_0 in
  let st := add_grade st enrollment3 float_78_5 in
  st.

End InitDb.

(** *** Stand-ins for the two library functions, used to run the routes on
    concrete requests *)

Definition plain_generate_password_hash (password : string) : string :=
  "plain$" ++ password.

Definition plain_check_password_hash (pwhash password : string) : bool :=
  String.eqb pwhash (plain_generate_password_hash password).

(** [float] on the few literals the examples send. *)
Definition literal_float_of_str (s : string) : option float :=
  if String.eqb s "0" then Some float_0
  else if String.eqb s "100" then Some float_100
  else if String.eqb s "-0.01" then Some float_neg_0_01
  else if String.eqb s "100.01" then Some float_100_01
  else if String.eqb s "85.5" then Some float_85_5
  else if String.eqb s "92.0" then Some float_92_0
  else if String.eqb s "78.5" then Some float_78_5
  else if String.eqb s "nan" then Some float_nan
  else None.

(** The database after [init_db] on an empty one. *)
Definition sample_store : store :=
  Eval vm_compute in init_db plain_generate_password_hash empty_store.

Definition student1_session : session :=
  Some (mk_session 2 "student1" "student").
Definition teacher1_session : session :=
  Some (mk_session 4 "teacher1" "teacher").

Definition post (fields : list (string * string)) : request :=
  {| method := "POST"; form := fields |}.

(** A small database for the scenarios: course 1 has a single seat and is
    taught by teacher 3, course 2 has two seats and nobody teaches it;
    users 1 and 2 are students, users 3 and 4 teachers. *)
Definition scenario_store : store :=
  {| users :=
       [User.mk 1 "A" (plain_generate_password_hash "pa") "student";
        User.mk 2 "B" (plain_generate_password_hash "pb") "student";
        User.mk 3 "T" (plain_generate_password_hash "pt") "teacher";
        User.mk 4 "U" (plain_generate_password_hash "pu") "teacher"];
     courses := [Course.mk 1 "X" "CS" 1; Course.mk 2 "Y" "CS" 2];
     enrollments := []; grades := [];
     teacher_courses := [TeacherCourse.mk 1 3 1] |}.

Definition session_A : session := Some (mk_session 1 "A" "student").
Definition session_B : session := Some (mk_session 2 "B" "student").
Definition session_T : session := Some (mk_session 3 "T" "teacher").

(** The scenario requests, served with the stand-in library functions. *)
Definition scenario_serve : store -> call -> reply * world :=
  serve plain_check_password_hash literal_float_of_str.
Definition scenario_run : store -> list call -> store :=
  run plain_check_password_hash literal_float_of_str.

(** The scenario database after student A has enrolled in course 2. *)
Definition scenario_store_Y : store :=
  scenario_run scenario_store
    [mk_call session_A (r_student_enroll 2) (post [])].

(** The sample data with one more user, whose password is not the one the
    login examples submit. *)
Definition sample_store_with_nobody : store :=
  fst (add_user sample_store "nobody" (plain_generate_password_hash "other")
                "student").

(** ** Pages that only read *)

(** [User.query.get(user_id)], also behind the relationship
    [Enrollment.user]. *)
Definition User_get (st : store) (user_id : Z) : option User.t :=
  find (fun u => User.id u =? user_id) (users st).

(** Rows as an index on [key] yields them: by ascending key, rows of equal
    key in table order. *)
Fixpoint insert_by_key {A : Type} (key : A -> Z) (a : A) (l : list A)
  : list A :=
  match l with
  | [] => [a]
  | b :: rest =>
      if key a <=? key b then a :: l else b :: insert_by_key key a rest
  end.

Definition index_order {A : Type} (key : A -> Z) (l : list A) : list A :=
  fold_right (insert_by_key key) [] l.

(** [Enrollment.query.filter_by(user_id=...)].  SQLite answers it from the
    index of [unique_enrollment] on (user_id, course_id): the rows of one
    user come in course_id order. *)
Definition enrollments_by_user (st : store) (user_id : Z)
  : list Enrollment.t :=
  index_order Enrollment.course_id
    (filter (fun e => Enrollment.user_id e =? user_id) (enrollments st)).

(** [Enrollment.query.filter_by(course_id=...)]: no index starts with
    course_id, the rows come in table order. *)
Definition enrollments_by_course (st : store) (course_id : Z)
  : list Enrollment.t :=
  filter (fun e => Enrollment.course_id e =? course_id) (enrollments st).


(** What a view that reads hands back: a reply of the kinds above, a
    rendered template with its context, or a JSON document. *)
Inductive outcome (C : Type) : Type :=
| replied (r : reply)
| rendered (template : string) (context : C)
| jsonify (data : C).

Arguments replied {C} r.
Arguments rendered {C} template context.
Arguments jsonify {C} data.

(** The test [login_required] makes before it calls the view: the reply it
    returns instead, if any. *)
Definition login_check (s : session) : option reply :=
  if negb (logged_in s) then
    Some (flash_return "Please log in to access this page." "warning"
            (redirect ep_login))
  else None.

(** The tests of [role_required]: the reply it returns instead of calling
    the view, or the session values it lets through. *)
Definition role_check (allowed_roles : list string) (s : session)
  : reply + session_data :=
  match s with
  | None =>
      inl (flash_return "Please log in to access this page." "warning"
             (redirect ep_login))
  | Some d =>
      if negb (existsb (String.eqb (s_role d)) allowed_roles) then
        inl (flash_return "You do not have permission to access this page."
               "danger" (redirect ep_index))
      else inr d
  end.

(** The two decorators around a view that reads. *)
Definition login_required_page {C : Type} (f : world -> outcome C)
  : world -> outcome C := fun w =>
  match login_check (sess w) with
  | Some r => replied r
  | None => f w
  end.

Definition role_required_page {C : Type} (allowed_roles : list string)
    (f : session_data -> world -> outcome C) : world -> outcome C := fun w =>
  match role_check allowed_roles (sess w) with
  | inl r => replied r
  | inr d => f d w
  end.

(** A [for] loop that appends one entry per row; a row whose entry cannot be
    built (an attribute read on [None]) ends the request with an error. *)
Fixpoint collect {A B : Type} (entry : A -> option B) (rows : list A)
  : option (list B) :=
  match rows with
  | [] => Some []
  | a :: rest =>
      match entry a with
      | None => None
      | Some b =>
          match collect entry rest with
          | None => None
          | Some bs => Some (b :: bs)
          end
      end
  end.

(** The dictionaries the pages build, one record per shape. *)
Module StudentCourse.
Record t := mk
  { id : Z; name : string; department : string; capacity : Z;
    enrolled : Z; grade : option float }.
End StudentCourse.

Module AvailableCourse.
Record t := mk
  { id : Z; name : string; department : string; capacity : Z;
    enrolled : Z; available : Z; is_enrolled : bool; is_full : bool }.
End AvailableCourse.

Module TaughtCourse.
Record t := mk
  { id : Z; name : string; department : string; capacity : Z;
    enrolled : Z }.
End TaughtCourse.

Module StudentGrade.
Record t := mk
  { enrollment_id : Z; student_id : Z; student_name : string;
    grade : option float; grade_id : option Z }.
End StudentGrade.

Module EnrollmentCount.
Record t := mk
  { course_id : Z; enrolled : Z; capacity : Z; available : Z;
    is_full : bool }.
End EnrollmentCount.

(** The entry [student_courses] builds for one enrollment. *)
Definition student_course_entry (st : store) (enrollment : Enrollment.t)
  : option StudentCourse.t :=
  match Course_get st (Enrollment.course_id enrollment) with
  | None => None
  | Some course =>
      let grade := Enrollment_grade st enrollment in
      Some (StudentCourse.mk (Course.id course) (Course.name course)
              (Course.department course) (Course.capacity course)
              (get_enrollment_count st course)
              (option_map Grade.grade_value grade))
  end.

(** [student_courses] *)
Definition student_courses : world -> outcome (list StudentCourse.t) :=
  login_required_page (role_required_page ["student"] (fun s w =>
    let user_id := s_user_id s in
    let enrollments := enrollments_by_user (db w) user_id in
    match collect (student_course_entry (db w)) enrollments with
    | None => replied reply_500
    | Some courses_data => rendered "student_courses.html" courses_data
    end)).

(** The entry [student_add] builds for one course. *)
Definition available_course_entry (st : store) (enrolled_course_ids : list Z)
    (course : Course.t) : AvailableCourse.t :=
  let is_enrolled := existsb (Z.eqb (Course.id course)) enrolled_course_ids in
  let enrollment_count := get_enrollment_count st course in
  let is_full := is_full st course in
  AvailableCourse.mk (Course.id course) (Course.name course)
    (Course.department course) (Course.capacity course) enrollment_count
    (Course.capacity course - enrollment_count) is_enrolled is_full.

(** [student_add]; the set of enrolled course ids is kept as the list of
    its members. *)
Definition student_add : world -> outcome (list AvailableCourse.t) :=
  login_required_page (role_required_page ["student"] (fun s w =>
    let user_id := s_user_id s in
    let all_courses := courses (db w) in
    let enrolled_course_ids :=
      map Enrollment.course_id (enrollments_by_user (db w) user_id) in
    rendered "student_add.html"
      (map (available_course_entry (db w) enrolled_course_ids) all_courses))).



(** The entry [teacher_course_detail] builds for one enrollment. *)
Definition student_grade_entry (st : store) (enrollment : Enrollment.t)
  : option StudentGrade.t :=
  match User_get st (Enrollment.user_id enrollment) with
  | None => None
  | Some student =>
      let grade := Enrollment_grade st enrollment in
      Some (StudentGrade.mk (Enrollment.id enrollment) (User.id student)
              (User.username student) (option_map Grade.grade_value grade)
              (option_map Grade.id grade))
  end.

Definition reply_not_teaching : reply :=
  flash_return "You do not teach this course." "danger"
    (redirect ep_teacher_courses).

(** [teacher_course_detail]; the context is the course and the students. *)
Definition teacher_course_detail (course_id : Z)
  : world -> outcome (Course.t * list StudentGrade.t) :=
  login_required_page (role_required_page ["teacher"] (fun s w =>
    let teacher_id := s_user_id s in
    match first (teacher_courses_by (db w) teacher_id course_id) with
    | None => replied reply_not_teaching
    | Some teacher_course =>
        match Course_get (db w) course_id with
        | None => replied reply_404
        | Some course =>
            let enrollments := enrollments_by_course (db w) course_id in
            match collect (student_grade_entry (db w)) enrollments with
            | None => replied reply_500
            | Some students_data =>
                rendered "teacher_course_detail.html" (course, students_data)
            end
        end
    end)).


(** ** Home page and admin panel *)

(** [session.get('role')] *)
Definition session_role (s : session) : option string :=
  option_map s_role s.

(** [role == name] for the value of [session.get('role')]. *)
Definition role_is (s : session) (name : string) : bool :=
  match session_role s with
  | Some r => String.eqb r name
  | None => false
  end.

(** Where [index] redirects: an endpoint of the application or the index
    of the admin panel. *)
Inductive home :=
| home_endpoint (e : endpoint)
| home_admin_index.

(** [index] *)
Definition index (s : session) : home :=
  if negb (logged_in s) then home_endpoint ep_login
  else if role_is s "student" then home_endpoint ep_student_courses
  else if role_is s "teacher" then home_endpoint ep_teacher_courses
  else if role_is s "admin" then home_admin_index
  else home_endpoint ep_login.

(** [SecureAdminIndexView.is_accessible]; [SecureModelView] and
    [LogoutMenuLink] repeat it. *)
Definition is_accessible (s : session) : bool :=
  logged_in s && role_is s "admin".

(** [inaccessible_callback] of the two admin views. *)
Definition inaccessible_callback (s : session) : reply :=
  if negb (logged_in s) then
    flash_return "Please log in to access the admin panel." "warning"
      (redirect ep_login)
  else if negb (role_is s "admin") then
    flash_return "You do not have permission to access the admin panel."
      "danger" (redirect ep_index)
  else {| flashed := []; body := redirect ep_login |}.

(** [forbidden], the handler of 403 errors, for a request to [path]. *)
Definition forbidden (path : string) (s : session) : reply :=
  if negb (logged_in s) then
    flash_return "Please log in to access this page." "warning"
      (redirect ep_login)
  else if negb (role_is s "admin") && String.prefix "/admin" path then
    flash_return "You do not have permission to access the admin panel."
      "danger" (redirect ep_index)
  else
    flash_return "You do not have permission to access this page." "danger"
      (redirect ep_index).

(** Foreign key of enrollments to users: every enrollment row references an
    existing user row. *)
Definition enrollments_reference_users (st : store) : Prop :=
  forall e, In e (enrollments st) ->
            In (Enrollment.user_id e) (map User.id (users st)).

(** Foreign key of enrollments to courses. *)
Definition enrollments_reference_courses (st : store) : Prop :=
  forall e, In e (enrollments st) ->
            In (Enrollment.course_id e) (map Course.id (courses st)).

(** Foreign key of teacher_courses to courses. *)
Definition teacher_courses_reference_courses (st : store) : Prop :=
  forall tc, In tc (teacher_courses st) ->
             In (TeacherCourse.course_id tc) (map Course.id (courses st)).

(** * Properties *)

(** ** List and query lemmas *)

Lemma first_filter {A : Type} (p : A -> bool) (l : list A) :
  first (filter p l) = find p l.
Proof.
  induction l as [|a l IH]; simpl; [reflexivity|].
  destruct (p a); simpl; auto.
Qed.

Lemma fold_left_max_ge (l : list Z) : forall a x,
  x = a \/ In x l -> x <= fold_left Z.max l a.
Proof.
  induction l as [|b l IH]; simpl; intros a x [Hx|Hx].
  - lia.
  - contradiction.
  - apply Z.le_trans with (Z.max a b); [lia|]. apply IH. now left.
  - destruct Hx as [Hx|Hx].
    + apply Z.le_trans with (Z.max a b); [lia|]. apply IH. now left.
    + apply IH. now right.
Qed.

Lemma next_id_above (ids : list Z) (x : Z) : In x ids -> x < next_id ids.
Proof.
  destruct ids as [|i rest]; [contradiction|].
  intros H. unfold next_id.
  assert (x <= fold_left Z.max rest i).
  { apply fold_left_max_ge. destruct H; auto. }
  lia.
Qed.

Lemma next_id_fresh (ids : list Z) : ~ In (next_id ids) ids.
Proof. intros H. apply next_id_above in H. lia. Qed.

(** Deleting rows keeps a key column free of duplicates. *)
Lemma NoDup_map_filter {Row Key : Type} (key : Row -> Key)
    (keep : Row -> bool) :
  forall rows, NoDup (map key rows) -> NoDup (map key (filter keep rows)).
Proof.
  intros rows. induction rows as [|a l IH]; simpl; intros H; [constructor|].
  inversion H as [|? ? Hnin Hnd]; subst.
  destruct (keep a); simpl; auto.
  constructor; auto.
  intros Hin. apply Hnin. apply in_map_iff in Hin.
  destruct Hin as [x [Hx Hin]]. apply filter_In in Hin.
  apply in_map_iff. exists x. tauto.
Qed.

Lemma NoDup_map_snoc {A B : Type} (f : A -> B) (l : list A) (a : A) :
  NoDup (map f l) -> ~ In (f a) (map f l) -> NoDup (map f (l ++ [a])).
Proof.
  intros Hnd Hnin. rewrite map_app. simpl.
  apply NoDup_app; auto.
  - repeat constructor. simpl. tauto.
  - intros x Hx [Hx'|[]]. subst. contradiction.
Qed.

Lemma filter_filter_length {A : Type} (p q : A -> bool) (l : list A) :
  (List.length (filter p (filter q l)) <= List.length (filter p l))%nat.
Proof.
  induction l as [|a l IH]; simpl; [lia|].
  destruct (q a); simpl; destruct (p a); simpl; lia.
Qed.

Lemma NoDup_map_inj_in {A B : Type} (f : A -> B) (l : list A) (x y : A) :
  NoDup (map f l) -> In x l -> In y l -> f x = f y -> x = y.
Proof.
  induction l as [|a l IH]; simpl; intros Hnd Hx Hy Hf; [contradiction|].
  inversion Hnd as [|? ? Hnin Hnd']; subst.
  destruct Hx as [Hx|Hx], Hy as [Hy|Hy]; subst; auto.
  - exfalso. apply Hnin. rewrite Hf. now apply in_map.
  - exfalso. apply Hnin. rewrite <- Hf. now apply in_map.
Qed.

Lemma is_enrolled_first (st : store) (user_id course_id : Z) :
  is_enrolled st user_id course_id = false <->
  first (enrollments_by_user_course st user_id course_id) = None.
Proof.
  unfold is_enrolled, enrollments_by_user_course. rewrite first_filter.
  induction (enrollments st) as [|e l IH]; simpl; [tauto|].
  destruct ((Enrollment.user_id e =? user_id)
            && (Enrollment.course_id e =? course_id)); simpl; [|exact IH].
  split; discriminate.
Qed.

Lemma Course_get_id (st : store) (course_id : Z) (c : Course.t) :
  Course_get st course_id = Some c ->
  In c (courses st) /\ Course.id c = course_id.
Proof.
  unfold Course_get. intros H. apply find_some in H.
  destruct H as [Hin Heq]. split; [assumption|lia].
Qed.

Lemma Enrollment_get_id (st : store) (enrollment_id : Z) (e : Enrollment.t) :
  Enrollment_get st enrollment_id = Some e ->
  In e (enrollments st) /\ Enrollment.id e = enrollment_id.
Proof.
  unfold Enrollment_get. intros H. apply find_some in H.
  destruct H as [Hin Heq]. split; [assumption|lia].
Qed.

Lemma first_by_user_course (st : store) (u c : Z) (e : Enrollment.t) :
  first (enrollments_by_user_course st u c) = Some e ->
  In e (enrollments st) /\ Enrollment.user_id e = u
  /\ Enrollment.course_id e = c.
Proof.
  unfold enrollments_by_user_course. rewrite first_filter. intros H.
  apply find_some in H. destruct H as [Hin Heq].
  apply andb_true_iff in Heq. split; [assumption|lia].
Qed.

Section Steps.

Variable check_password_hash : string -> string -> bool.
Variable float_of_str : string -> option float.

Local Abbreviation serve' := (serve check_password_hash float_of_str).
Local Abbreviation run' := (run check_password_hash float_of_str).

Lemma serve_step (st : store) (c : call) :
  store_step st (db (snd (serve' st c))).
Proof.
  destruct c as [s r req]. unfold serve.
  destruct r; simpl;
    unfold int_rule, post_only, login, logout, student_enroll, student_drop,
           teacher_edit_grade, login_required, role_required; simpl;
    repeat (case_split; simpl; try apply step_none).
  - eapply step_enroll; eauto. now apply is_enrolled_first.
  - apply step_drop. eapply first_by_user_course; eauto.
  - eapply step_grade_update; eauto.
    eapply Enrollment_get_id; eauto.
  - match goal with
    | H : Enrollment_get _ _ = Some _ |- _ =>
        destruct (Enrollment_get_id _ _ _ H) as [Hin Hid]
    end.
    rewrite <- Hid. now apply step_grade_add.
Qed.

Lemma run_snoc (st : store) (cs : list call) (c : call) :
  run' st (cs ++ [c]) = db (snd (serve' (run' st cs) c)).
Proof.
  unfold run. now rewrite fold_left_app.
Qed.

Lemma run_steps (st : store) (cs : list call) : store_steps st (run' st cs).
Proof.
  induction cs as [|c cs IH] using rev_ind.
  - apply steps_refl.
  - rewrite run_snoc. eapply steps_snoc; [exact IH|apply serve_step].
Qed.

End Steps.

Example sample_store_tables :
  map Enrollment.id (enrollments sample_store) = [1; 2; 3]
  /\ map enrollment_key (enrollments sample_store) = [(2, 1); (2, 2); (3, 1)]
  /\ map Grade.enrollment_id (grades sample_store) = [1; 2; 3]
  /\ map Course.capacity (courses sample_store) = [30; 25; 20].
Proof. repeat split. Qed.

(** ** Capacity *)

Lemma store_step_courses (st st' : store) :
  store_step st st' -> courses st' = courses st.
Proof.
  intros H; destruct H; try reflexivity.
Qed.

Lemma store_steps_courses (st st' : store) :
  store_steps st st' -> courses st' = courses st.
Proof.
  induction 1 as [|st1 st2 _ IH Hstep]; [reflexivity|].
  rewrite (store_step_courses _ _ Hstep). exact IH.
Qed.

Lemma count_add_enrollment (st : store) (user_id course_id : Z) (c : Course.t) :
  get_enrollment_count (add_enrollment st user_id course_id) c =
  get_enrollment_count st c + (if course_id =? Course.id c then 1 else 0).
Proof.
  unfold get_enrollment_count, Course_enrollments, add_enrollment. simpl.
  rewrite filter_app, length_app. simpl.
  destruct (course_id =? Course.id c); simpl; lia.
Qed.

Lemma count_delete_enrollment (st : store) (e : Enrollment.t) (c : Course.t) :
  get_enrollment_count (delete_enrollment st e) c <= get_enrollment_count st c.
Proof.
  unfold get_enrollment_count, Course_enrollments, delete_enrollment. simpl.
  apply Nat2Z.inj_le, filter_filter_length.
Qed.

Lemma store_step_within_capacity (st st' : store) (c : Course.t) :
  NoDup (map Course.id (courses st)) ->
  In c (courses st) ->
  store_step st st' ->
  within_capacity st c -> within_capacity st' c.
Proof.
  unfold within_capacity. intros Hpk Hc Hstep Hle.
  destruct Hstep as [|u cid course Hget Hnot Hfull|e He|e g v He Hg|e v He Hg].
  - exact Hle.
  - rewrite count_add_enrollment.
    destruct (cid =? Course.id c) eqn:Heq; [|lia].
    apply Course_get_id in Hget. destruct Hget as [Hin Hid].
    assert (course = c) as ->.
    { apply (NoDup_map_inj_in Course.id (courses st)); auto. lia. }
    unfold is_full in Hfull. lia.
  - pose proof (count_delete_enrollment st e c). lia.
  - exact Hle.
  - exact Hle.
Qed.

Lemma store_steps_within_capacity (st st' : store) (c : Course.t) :
  NoDup (map Course.id (courses st)) ->
  In c (courses st) ->
  store_steps st st' ->
  within_capacity st c -> within_capacity st' c.
Proof.
  intros Hpk Hc Hsteps Hle.
  induction Hsteps as [|st1 st2 Hsteps IH Hstep]; [exact Hle|].
  pose proof (store_steps_courses _ _ Hsteps) as Hcs.
  apply (store_step_within_capacity st1); auto; rewrite Hcs; assumption.
Qed.

(** C1. Starting from a database in which a course is within its capacity,
    the course is still within its capacity after each request of any
    sequence of requests (enroll and drop among them, by any clients):
    [enrollmentCount(C) <= capacity(C)] holds after every prefix of the
    sequence.  Course ids are a primary key. *)
Theorem capacity_invariant
    (check_password_hash : string -> string -> bool)
    (float_of_str : string -> option float)
    (st : store) (c : Course.t) (cs : list call) (n : nat) :
  NoDup (map Course.id (courses st)) ->
  In c (courses st) ->
  get_enrollment_count st c <= Course.capacity c ->
  get_enrollment_count
    (run check_password_hash float_of_str st (firstn n cs)) c
  <= Course.capacity c.
Proof.
  intros Hpk Hc Hle.
  apply (store_steps_within_capacity st); auto.
  apply run_steps.
Qed.

Lemma capacity_invariant_witness :
  (NoDup (map Course.id (courses scenario_store))
   /\ In (Course.mk 1 "X" "CS" 1) (courses scenario_store)
   /\ get_enrollment_count scenario_store (Course.mk 1 "X" "CS" 1) <= 1)
  /\ get_enrollment_count
       (scenario_run scenario_store
          (firstn 2 [mk_call session_A (r_student_enroll 1) (post []);
                     mk_call session_B (r_student_enroll 1) (post []);
                     mk_call session_A (r_student_drop 1) (post []);
                     mk_call session_B (r_student_enroll 1) (post [])]))
       (Course.mk 1 "X" "CS" 1)
     <= 1.
Proof.
  assert (Hpk : NoDup (map Course.id (courses scenario_store))).
  { repeat constructor; simpl; intuition discriminate. }
  assert (Hin : In (Course.mk 1 "X" "CS" 1) (courses scenario_store)).
  { simpl. now left. }
  assert (Hle : get_enrollment_count scenario_store (Course.mk 1 "X" "CS" 1)
                <= 1).
  { vm_compute. discriminate. }
  split; [auto|].
  exact (capacity_invariant plain_check_password_hash literal_float_of_str
           scenario_store (Course.mk 1 "X" "CS" 1) _ 2%nat Hpk Hin Hle).
Defined.

(** The last-seat scenario: A takes the seat, B is refused, A drops, B gets
    the seat. *)
Example last_seat_scenario :
  let c := Course.mk 1 "X" "CS" 1 in
  let enroll s := mk_call s (r_student_enroll 1) (post []) in
  let drop s := mk_call s (r_student_drop 1) (post []) in
  let st1 := scenario_run scenario_store [enroll session_A] in
  let st2 := scenario_run st1 [enroll session_B] in
  let st3 := scenario_run st2 [drop session_A] in
  fst (scenario_serve scenario_store (enroll session_A)) = reply_enrolled c
  /\ is_full st1 c = true
  /\ fst (scenario_serve st1 (enroll session_B)) = reply_course_full st1 c
  /\ st2 = st1
  /\ fst (scenario_serve st2 (drop session_A)) = reply_dropped "X"
  /\ is_full st3 c = false
  /\ fst (scenario_serve st3 (enroll session_B)) = reply_enrolled c.
Proof. vm_compute. repeat split. Qed.

(** ** Enrolling *)

Lemma is_enrolled_true (st : store) (u c : Z) :
  is_enrolled st u c = true <-> enrolled_in st u c.
Proof.
  unfold is_enrolled, enrolled_in. rewrite existsb_exists.
  split; intros [e [Hin H]]; exists e; split; auto.
  - apply andb_true_iff in H. lia.
  - apply andb_true_iff. lia.
Qed.

Lemma is_enrolled_false (st : store) (u c : Z) :
  is_enrolled st u c = false <-> ~ enrolled_in st u c.
Proof.
  rewrite <- is_enrolled_true. destruct (is_enrolled st u c); intuition congruence.
Qed.

Lemma student_enroll_unfold (s : session_data) (st : store) (course_id : Z)
    (req : request) :
  s_role s = "student" ->
  student_enroll course_id req {| db := st; sess := Some s |} =
  match Course_get st course_id with
  | None => (reply_404, {| db := st; sess := Some s |})
  | Some course =>
      if is_enrolled st (s_user_id s) course_id then
        (reply_already_enrolled, {| db := st; sess := Some s |})
      else if is_full st course then
        (reply_course_full st course, {| db := st; sess := Some s |})
      else
        (reply_enrolled course,
         {| db := add_enrollment st (s_user_id s) course_id;
            sess := Some s |})
  end.
Proof.
  intros Hrole. unfold student_enroll, login_required, role_required. simpl.
  rewrite Hrole. simpl.
  destruct (Course_get st course_id) as [course|]; [|reflexivity].
  destruct (is_enrolled st (s_user_id s) course_id) eqn:He.
  - destruct (first (enrollments_by_user_course st (s_user_id s) course_id))
      eqn:Hf; [reflexivity|].
    apply is_enrolled_first in Hf. congruence.
  - apply is_enrolled_first in He. rewrite He. reflexivity.
Qed.

Lemma Enrollment_grade_first (st : store) (e : Enrollment.t) :
  Enrollment_grade st e = first (grades_of st (Enrollment.id e)).
Proof. unfold Enrollment_grade, grades_of. now rewrite first_filter. Qed.

Lemma no_grade_at_next_id (ids : list Z) (l : list Grade.t) :
  (forall g, In g l -> In (Grade.enrollment_id g) ids) ->
  filter (fun g => Grade.enrollment_id g =? next_id ids) l = [].
Proof.
  induction l as [|g l IH]; simpl; intros Hfk; [reflexivity|].
  assert (Hg : In (Grade.enrollment_id g) ids) by (apply Hfk; now left).
  apply next_id_above in Hg.
  destruct (Grade.enrollment_id g =? next_id ids) eqn:Heq; [lia|].
  apply IH. intros g' Hg'. apply Hfk. now right.
Qed.

Lemma no_grade_for_new_enrollment (st : store) (u c : Z) :
  grades_reference_enrollments st ->
  grades_of (add_enrollment st u c) (new_enrollment_id st) = [].
Proof.
  intros Hfk. unfold grades_of, add_enrollment, new_enrollment_id. simpl.
  now apply no_grade_at_next_id.
Qed.

(** C2. For a logged-in student and an existing course, [student_enroll]
    checks in this order: an existing enrollment of the pair gives the
    already-enrolled reply; otherwise a course whose enrollment count has
    reached its capacity gives the course-full reply; otherwise the request
    succeeds and appends exactly one enrollment row for the pair.  Both
    failures leave the world as it was.  The new row has a fresh id and, when
    every grade references an existing enrollment, no grade row. *)
Theorem student_enroll_spec (s : session_data) (st : store) (course_id : Z)
    (course : Course.t) (req : request) :
  s_role s = "student" ->
  Course_get st course_id = Some course ->
  let w := {| db := st; sess := Some s |} in
  let user_id := s_user_id s in
  let result := student_enroll course_id req w in
  (enrolled_in st user_id course_id ->
     result = (reply_already_enrolled, w))
  /\ (~ enrolled_in st user_id course_id ->
      get_enrollment_count st course >= Course.capacity course ->
      result = (reply_course_full st course, w))
  /\ (~ enrolled_in st user_id course_id ->
      get_enrollment_count st course < Course.capacity course ->
      let e := Enrollment.mk (new_enrollment_id st) user_id course_id in
      fst result = reply_enrolled course
      /\ sess (snd result) = Some s
      /\ enrollments (db (snd result)) = (enrollments st ++ [e])%list
      /\ ~ In (Enrollment.id e) (map Enrollment.id (enrollments st))
      /\ users (db (snd result)) = users st
      /\ courses (db (snd result)) = courses st
      /\ grades (db (snd result)) = grades st
      /\ teacher_courses (db (snd result)) = teacher_courses st
      /\ (grades_reference_enrollments st ->
          grades_of (db (snd result)) (Enrollment.id e) = []
          /\ Enrollment_grade (db (snd result)) e = None)).
Proof.
  intros Hrole Hget w user_id result. subst result w user_id.
  rewrite (student_enroll_unfold s st course_id req Hrole), Hget.
  split; [|split].
  - intros He. apply is_enrolled_true in He. now rewrite He.
  - intros He Hfull. apply is_enrolled_false in He. rewrite He.
    unfold is_full.
    destruct (get_enrollment_count st course >=? Course.capacity course)
      eqn:Hc; [reflexivity|lia].
  - intros He Hfree. apply is_enrolled_false in He. rewrite He.
    unfold is_full.
    destruct (get_enrollment_count st course >=? Course.capacity course)
      eqn:Hc; [lia|]. simpl.
    repeat split.
    + apply next_id_fresh.
    + now apply no_grade_for_new_enrollment.
    + rewrite Enrollment_grade_first. simpl.
      now rewrite no_grade_for_new_enrollment.
Qed.

Lemma student_enroll_spec_witness :
  (s_role (mk_session 1 "A" "student") = "student"
   /\ Course_get scenario_store 1 = Some (Course.mk 1 "X" "CS" 1))
  /\ fst (student_enroll 1 (post [])
            {| db := scenario_store; sess := session_A |})
     = reply_enrolled (Course.mk 1 "X" "CS" 1).
Proof.
  split; [split; reflexivity|].
  destruct (student_enroll_spec (mk_session 1 "A" "student") scenario_store 1
              (Course.mk 1 "X" "CS" 1) (post []) eq_refl eq_refl)
    as [_ [_ H]].
  apply H.
  - intros [e [[] _]].
  - vm_compute. reflexivity.
Defined.

(** ** One enrollment per pair *)

Lemma filter_comm {A : Type} (p q : A -> bool) (l : list A) :
  filter p (filter q l) = filter q (filter p l).
Proof.
  induction l as [|a l IH]; simpl; [reflexivity|].
  destruct (p a) eqn:Hp, (q a) eqn:Hq; simpl;
    rewrite ?Hp, ?Hq, IH; reflexivity.
Qed.

Lemma not_enrolled_no_rows (st : store) (u c : Z) :
  is_enrolled st u c = false -> enrollments_by_user_course st u c = [].
Proof.
  unfold is_enrolled, enrollments_by_user_course.
  induction (enrollments st) as [|e l IH]; simpl; [reflexivity|].
  destruct ((Enrollment.user_id e =? u) && (Enrollment.course_id e =? c));
    simpl; [discriminate|exact IH].
Qed.

Lemma rows_add_enrollment (st : store) (u0 c0 u c : Z) :
  enrollments_by_user_course (add_enrollment st u0 c0) u c =
  (enrollments_by_user_course st u c ++
   if (u0 =? u) && (c0 =? c)
   then [Enrollment.mk (new_enrollment_id st) u0 c0] else [])%list.
Proof.
  unfold enrollments_by_user_course, add_enrollment. simpl.
  rewrite filter_app. simpl.
  destruct ((u0 =? u) && (c0 =? c)); reflexivity.
Qed.

Lemma rows_delete_enrollment (st : store) (e : Enrollment.t) (u c : Z) :
  enrollments_by_user_course (delete_enrollment st e) u c =
  filter (fun e' => negb (Enrollment.id e' =? Enrollment.id e))
         (enrollments_by_user_course st u c).
Proof.
  unfold enrollments_by_user_course, delete_enrollment. simpl.
  apply filter_comm.
Qed.

Lemma store_step_unique_enrollment (st st' : store) :
  store_step st st' -> unique_enrollment st -> unique_enrollment st'.
Proof.
  unfold unique_enrollment.
  intros Hstep Hu u c.
  destruct Hstep as [|u0 c0 course Hget Hnot Hfull|e He|e g v He Hg|e v He Hg];
    try apply Hu.
  - rewrite rows_add_enrollment.
    destruct ((u0 =? u) && (c0 =? c)) eqn:Heq.
    + apply andb_true_iff in Heq. destruct Heq as [Hu0 Hc0].
      apply Z.eqb_eq in Hu0, Hc0. subst u0 c0.
      rewrite (not_enrolled_no_rows _ _ _ Hnot). simpl. lia.
    + rewrite app_nil_r. apply Hu.
  - rewrite rows_delete_enrollment.
    pose proof (filter_length_le
                  (fun e' => negb (Enrollment.id e' =? Enrollment.id e))
                  (enrollments_by_user_course st u c)).
    specialize (Hu u c). lia.
Qed.

Lemma store_steps_unique_enrollment (st st' : store) :
  store_steps st st' -> unique_enrollment st -> unique_enrollment st'.
Proof.
  induction 1 as [|st1 st2 _ IH Hstep]; intros Hu; [exact Hu|].
  apply (store_step_unique_enrollment st1); auto.
Qed.

Lemma student_drop_unfold (s : session_data) (st : store) (course_id : Z)
    (req : request) :
  s_role s = "student" ->
  student_drop course_id req {| db := st; sess := Some s |} =
  match first (enrollments_by_user_course st (s_user_id s) course_id) with
  | Some enrollment =>
      match Course_get st (Enrollment.course_id enrollment) with
      | Some course =>
          (reply_dropped (Course.name course),
           {| db := delete_enrollment st enrollment; sess := Some s |})
      | None => (reply_500, {| db := st; sess := Some s |})
      end
  | None => (reply_enrollment_not_found, {| db := st; sess := Some s |})
  end.
Proof.
  intros Hrole. unfold student_drop, login_required, role_required. simpl.
  rewrite Hrole. reflexivity.
Qed.

Lemma Course_get_add_enrollment (st : store) (u c course_id : Z) :
  Course_get (add_enrollment st u c) course_id = Course_get st course_id.
Proof. reflexivity. Qed.

Lemma filter_below_next_id (l : list Enrollment.t) :
  filter (fun e' => negb (Enrollment.id e' =? next_id (map Enrollment.id l))) l
  = l.
Proof.
  assert (H : forall ids, (forall e, In e l -> In (Enrollment.id e) ids) ->
            filter (fun e' => negb (Enrollment.id e' =? next_id ids)) l = l).
  { induction l as [|e l IH]; simpl; intros ids Hin; [reflexivity|].
    assert (He : In (Enrollment.id e) ids) by (apply Hin; now left).
    apply next_id_above in He.
    destruct (Enrollment.id e =? next_id ids) eqn:Heq; [lia|]. simpl.
    f_equal. apply IH. intros e' He'. apply Hin. now right. }
  apply H. intros e He. now apply in_map.
Qed.

Lemma enrollments_delete_added (st : store) (u c : Z) :
  enrollments
    (delete_enrollment (add_enrollment st u c)
       (Enrollment.mk (new_enrollment_id st) u c))
  = enrollments st.
Proof.
  unfold delete_enrollment, add_enrollment, new_enrollment_id. simpl.
  rewrite filter_app, filter_below_next_id. simpl.
  rewrite Z.eqb_refl. simpl. apply app_nil_r.
Qed.

Lemma enroll_drop_enroll (s : session_data) (st : store) (course_id : Z)
    (course : Course.t) (req1 req2 req3 : request) :
  s_role s = "student" ->
  Course_get st course_id = Some course ->
  ~ enrolled_in st (s_user_id s) course_id ->
  get_enrollment_count st course < Course.capacity course ->
  let r1 := student_enroll course_id req1 {| db := st; sess := Some s |} in
  let r2 := student_drop course_id req2 (snd r1) in
  let r3 := student_enroll course_id req3 (snd r2) in
  fst r1 = reply_enrolled course
  /\ fst r2 = reply_dropped (Course.name course)
  /\ enrollments (db (snd r2)) = enrollments st
  /\ fst r3 = reply_enrolled course
  /\ List.length
       (enrollments_by_user_course (db (snd r3)) (s_user_id s) course_id)
     = 1%nat.
Proof.
  intros Hrole Hget Hnot Hfree r1 r2 r3.
  apply is_enrolled_false in Hnot.
  assert (Hfull : is_full st course = false) by (unfold is_full; lia).
  assert (Hr1 : r1 = (reply_enrolled course,
                      {| db := add_enrollment st (s_user_id s) course_id;
                         sess := Some s |})).
  { subst r1. rewrite student_enroll_unfold by assumption.
    now rewrite Hget, Hnot, Hfull. }
  set (e := Enrollment.mk (new_enrollment_id st) (s_user_id s) course_id).
  assert (Hrows1 : enrollments_by_user_course
                     (add_enrollment st (s_user_id s) course_id)
                     (s_user_id s) course_id = [e]).
  { rewrite rows_add_enrollment, (not_enrolled_no_rows _ _ _ Hnot).
    now rewrite !Z.eqb_refl. }
  assert (Hr2 : r2 = (reply_dropped (Course.name course),
                      {| db := delete_enrollment
                                 (add_enrollment st (s_user_id s) course_id) e;
                         sess := Some s |})).
  { subst r2. rewrite Hr1. simpl snd.
    rewrite student_drop_unfold by assumption.
    rewrite Hrows1. cbn [first hd_error]. subst e. cbn [Enrollment.course_id].
    now rewrite Course_get_add_enrollment, Hget. }
  set (st2 := delete_enrollment (add_enrollment st (s_user_id s) course_id) e)
    in *.
  assert (Hen2 : enrollments st2 = enrollments st)
    by apply enrollments_delete_added.
  assert (Hnot2 : is_enrolled st2 (s_user_id s) course_id = false).
  { unfold is_enrolled. rewrite Hen2. exact Hnot. }
  assert (Hfull2 : is_full st2 course = false).
  { unfold is_full, get_enrollment_count, Course_enrollments in *.
    now rewrite Hen2. }
  assert (Hr3 : r3 = (reply_enrolled course,
                      {| db := add_enrollment st2 (s_user_id s) course_id;
                         sess := Some s |})).
  { subst r3. rewrite Hr2. simpl snd.
    rewrite student_enroll_unfold by assumption.
    change (Course_get st2 course_id) with (Course_get st course_id).
    now rewrite Hget, Hnot2, Hfull2. }
  rewrite Hr1, Hr2, Hr3. simpl.
  repeat split; try assumption.
  rewrite rows_add_enrollment, (not_enrolled_no_rows _ _ _ Hnot2).
  now rewrite !Z.eqb_refl.
Qed.

(** C3. At most one enrollment row exists for each (student, course) pair,
    and every sequence of requests preserves this.  The round trip enroll,
    drop, enroll by a student who was not enrolled in a course with a free
    seat succeeds three times and leaves exactly one row for the pair. *)
Theorem one_enrollment_per_pair
    (check_password_hash : string -> string -> bool)
    (float_of_str : string -> option float) :
  (forall st cs,
     unique_enrollment st ->
     unique_enrollment (run check_password_hash float_of_str st cs))
  /\ (forall (s : session_data) st course_id course req1 req2 req3,
        s_role s = "student" ->
        Course_get st course_id = Some course ->
        ~ enrolled_in st (s_user_id s) course_id ->
        get_enrollment_count st course < Course.capacity course ->
        let r1 := student_enroll course_id req1 {| db := st; sess := Some s |} in
        let r2 := student_drop course_id req2 (snd r1) in
        let r3 := student_enroll course_id req3 (snd r2) in
        fst r1 = reply_enrolled course
        /\ fst r2 = reply_dropped (Course.name course)
        /\ fst r3 = reply_enrolled course
        /\ List.length
             (enrollments_by_user_course (db (snd r3)) (s_user_id s) course_id)
           = 1%nat).
Proof.
  split.
  - intros st cs Hu.
    apply (store_steps_unique_enrollment st); [apply run_steps|exact Hu].
  - intros s st course_id course req1 req2 req3 Hrole Hget Hnot Hfree.
    destruct (enroll_drop_enroll s st course_id course req1 req2 req3
                Hrole Hget Hnot Hfree) as (H1 & H2 & _ & H3 & H4).
    auto.
Qed.

Lemma one_enrollment_per_pair_witness :
  List.length
    (enrollments_by_user_course
       (db (snd (student_enroll 1 (post [])
                   (snd (student_drop 1 (post [])
                           (snd (student_enroll 1 (post [])
                                   {| db := scenario_store;
                                      sess := session_A |})))))))
       1 1)
  = 1%nat.
Proof.
  destruct (one_enrollment_per_pair plain_check_password_hash
              literal_float_of_str) as [_ H].
  apply (H (mk_session 1 "A" "student") scenario_store 1
           (Course.mk 1 "X" "CS" 1) (post []) (post []) (post [])).
  - reflexivity.
  - reflexivity.
  - intros [e [[] _]].
  - vm_compute. reflexivity.
Defined.

(** ** Grading *)

Lemma teaches_first (st : store) (t c : Z) :
  teaches st t c <-> first (teacher_courses_by st t c) <> None.
Proof.
  unfold teaches, teacher_courses_by. rewrite first_filter. split.
  - intros [tc [Hin [Ht Hc]]] Hnone.
    apply (find_none _ _ Hnone) in Hin.
    apply andb_false_iff in Hin. lia.
  - destruct (find _ (teacher_courses st)) as [tc|] eqn:Hf; [|congruence].
    intros _. apply find_some in Hf. destruct Hf as [Hin Hp].
    apply andb_true_iff in Hp. exists tc. split; [assumption|lia].
Qed.

Lemma teacher_edit_grade_unfold (float_of_str : string -> option float)
    (s : session_data) (st : store) (enrollment_id : Z) (req : request) :
  s_role s = "teacher" ->
  teacher_edit_grade float_of_str enrollment_id req
    {| db := st; sess := Some s |} =
  let w := {| db := st; sess := Some s |} in
  match Enrollment_get st enrollment_id with
  | None => (reply_404, w)
  | Some e =>
      let course_id := Enrollment.course_id e in
      match first (teacher_courses_by st (s_user_id s) course_id) with
      | None => (reply_grade_forbidden, w)
      | Some _ =>
          match form_grade float_of_str req with
          | None => (reply_grade_invalid course_id, w)
          | Some v =>
              if float_lt v float_0 || float_gt v float_100 then
                (reply_grade_out_of_range course_id, w)
              else
                match stored_grade_value v with
                | None => (reply_500, w)
                | Some stored =>
                    (reply_grade_updated course_id,
                     {| db := upsert_grade st e stored; sess := Some s |})
                end
          end
      end
  end.
Proof.
  intros Hrole. unfold teacher_edit_grade, login_required, role_required.
  simpl. rewrite Hrole. simpl.
  destruct (Enrollment_get st enrollment_id) as [e|] eqn:Hget; [|reflexivity].
  apply Enrollment_get_id in Hget. destruct Hget as [_ Hid].
  unfold upsert_grade, set_db. simpl. rewrite Hid. reflexivity.
Qed.

(** What an authorized teacher gets for an existing enrollment and a form
    whose grade converts to [v]. *)
Lemma teacher_edit_grade_value (float_of_str : string -> option float)
    (s : session_data) (st : store) (enrollment_id : Z) (e : Enrollment.t)
    (req : request) (v : float) :
  s_role s = "teacher" ->
  Enrollment_get st enrollment_id = Some e ->
  teaches st (s_user_id s) (Enrollment.course_id e) ->
  form_grade float_of_str req = Some v ->
  teacher_edit_grade float_of_str enrollment_id req
    {| db := st; sess := Some s |} =
  if float_lt v float_0 || float_gt v float_100 then
    (reply_grade_out_of_range (Enrollment.course_id e),
     {| db := st; sess := Some s |})
  else
    match stored_grade_value v with
    | None => (reply_500, {| db := st; sess := Some s |})
    | Some stored =>
        (reply_grade_updated (Enrollment.course_id e),
         {| db := upsert_grade st e stored; sess := Some s |})
    end.
Proof.
  intros Hrole Hget Hteach Hv.
  rewrite teacher_edit_grade_unfold by assumption. simpl.
  rewrite Hget. apply teaches_first in Hteach.
  destruct (first (teacher_courses_by st (s_user_id s)
                     (Enrollment.course_id e))); [|congruence].
  now rewrite Hv.
Qed.

Lemma filter_map_preserved {A : Type} (p : A -> bool) (f : A -> A)
    (l : list A) :
  (forall x, p (f x) = p x) -> filter p (map f l) = map f (filter p l).
Proof.
  intros Hp. induction l as [|a l IH]; simpl; [reflexivity|].
  rewrite Hp. destruct (p a); simpl; now rewrite IH.
Qed.

Lemma grades_of_update (st : store) (g : Grade.t) (v : float) (eid : Z) :
  grades_of (update_grade_value st g v) eid =
  map (fun g' => if Grade.id g' =? Grade.id g then overwritten g' v else g')
      (grades_of st eid).
Proof.
  unfold grades_of, update_grade_value. simpl.
  apply filter_map_preserved.
  intros x. destruct (Grade.id x =? Grade.id g); reflexivity.
Qed.

Lemma grades_of_add (st : store) (eid0 eid : Z) (v : float) :
  grades_of (add_grade st eid0 v) eid =
  (grades_of st eid ++
   if eid0 =? eid
   then [Grade.mk (next_id (map Grade.id (grades st))) eid0 v] else [])%list.
Proof.
  unfold grades_of, add_grade. simpl. rewrite filter_app. simpl.
  destruct (eid0 =? eid); reflexivity.
Qed.

(** After the write of a successful edit, the grade rows of the enrollment
    are the one row holding the new value, provided there was at most one
    before. *)
Lemma grade_values_upsert (st : store) (e : Enrollment.t) (v : float) :
  (List.length (grades_of st (Enrollment.id e)) <= 1)%nat ->
  grade_values (upsert_grade st e v) (Enrollment.id e) = [v].
Proof.
  intros Hle. unfold grade_values, upsert_grade.
  rewrite Enrollment_grade_first.
  destruct (grades_of st (Enrollment.id e)) as [|g [|g' l]] eqn:Hg;
    simpl in Hle; try lia; cbn [first hd_error].
  - rewrite grades_of_add, Hg, Z.eqb_refl. reflexivity.
  - rewrite grades_of_update, Hg. simpl. now rewrite Z.eqb_refl.
Qed.

Lemma upsert_grade_other_tables (st : store) (e : Enrollment.t) (v : float) :
  users (upsert_grade st e v) = users st
  /\ courses (upsert_grade st e v) = courses st
  /\ enrollments (upsert_grade st e v) = enrollments st
  /\ teacher_courses (upsert_grade st e v) = teacher_courses st.
Proof.
  unfold upsert_grade. destruct (Enrollment_grade st e); repeat split.
Qed.

(** C4. For an authorized teacher, an existing enrollment and a submitted
    grade [v], [teacher_edit_grade] answers with the out-of-range reply
    exactly when [v < 0] or [v > 100]; in that case the world is unchanged,
    so no grade row is created or modified.  It answers so for -0.01 and
    100.01, and accepts 0 and 100, which then are the value of the one
    grade row it leaves for an enrollment that had at most one. *)
Theorem grade_range_check (float_of_str : string -> option float)
    (s : session_data) (st : store) (enrollment_id : Z) (e : Enrollment.t)
    (req : request) (v : float) :
  s_role s = "teacher" ->
  Enrollment_get st enrollment_id = Some e ->
  teaches st (s_user_id s) (Enrollment.course_id e) ->
  form_grade float_of_str req = Some v ->
  let w := {| db := st; sess := Some s |} in
  let result := teacher_edit_grade float_of_str enrollment_id req w in
  let course_id := Enrollment.course_id e in
  (fst result = reply_grade_out_of_range course_id <->
   float_lt v float_0 = true \/ float_gt v float_100 = true)
  /\ (fst result = reply_grade_out_of_range course_id -> snd result = w)
  /\ (v = float_neg_0_01 \/ v = float_100_01 ->
      result = (reply_grade_out_of_range course_id, w))
  /\ (v = float_0 \/ v = float_100 ->
      fst result = reply_grade_updated course_id
      /\ ((List.length (grades_of st (Enrollment.id e)) <= 1)%nat ->
          grade_values (db (snd result)) (Enrollment.id e) = [v])).
Proof.
  intros Hrole Hget Hteach Hv w result course_id. subst result w course_id.
  rewrite (teacher_edit_grade_value float_of_str s st enrollment_id e req v)
    by assumption.
  split; [|split; [|split]].
  - rewrite <- orb_true_iff.
    destruct (float_lt v float_0 || float_gt v float_100); simpl.
    + tauto.
    + split; [|discriminate].
      destruct (stored_grade_value v); simpl;
        unfold reply_grade_updated, reply_grade_out_of_range, reply_500,
               flash_return;
        intros H; discriminate H.
  - destruct (float_lt v float_0 || float_gt v float_100); simpl.
    + reflexivity.
    + destruct (stored_grade_value v); simpl;
        unfold reply_grade_updated, reply_grade_out_of_range, reply_500,
               flash_return;
        intros H; discriminate H.
  - intros [-> | ->]; reflexivity.
  - intros [-> | ->]; simpl; (split; [reflexivity|]);
      intros Hle; now apply grade_values_upsert.
Qed.

Lemma grade_range_check_witness :
  (s_role (mk_session 4 "teacher1" "teacher") = "teacher"
   /\ Enrollment_get sample_store 1 = Some (Enrollment.mk 1 2 1)
   /\ teaches sample_store 4 1
   /\ form_grade literal_float_of_str (post [("grade", "100.01")])
      = Some float_100_01)
  /\ teacher_edit_grade literal_float_of_str 1 (post [("grade", "100.01")])
       {| db := sample_store; sess := teacher1_session |}
     = (reply_grade_out_of_range 1,
        {| db := sample_store; sess := teacher1_session |}).
Proof.
  assert (Ht : teaches sample_store 4 1).
  { exists (TeacherCourse.mk 1 4 1). simpl. auto. }
  split; [repeat split; exact Ht|].
  destruct (grade_range_check literal_float_of_str
              (mk_session 4 "teacher1" "teacher") sample_store 1
              (Enrollment.mk 1 2 1) (post [("grade", "100.01")]) float_100_01
              eq_refl eq_refl Ht eq_refl) as (_ & _ & H & _).
  apply H. now right.
Defined.

(** ** One grade per enrollment *)

Lemma Enrollment_grade_none (st : store) (e : Enrollment.t) :
  Enrollment_grade st e = None -> grades_of st (Enrollment.id e) = [].
Proof.
  rewrite Enrollment_grade_first.
  destruct (grades_of st (Enrollment.id e)); [reflexivity|discriminate].
Qed.

Lemma store_step_unique_grade (st st' : store) :
  store_step st st' -> unique_grade_enrollment st ->
  unique_grade_enrollment st'.
Proof.
  unfold unique_grade_enrollment.
  intros Hstep Hu eid.
  destruct Hstep as [|u0 c0 course Hget Hnot Hfull|e He|e g v He Hg|e v He Hg].
  - apply Hu.
  - apply Hu.
  - unfold grades_of, delete_enrollment. simpl.
    destruct (Enrollment_grade st e) as [g|]; [|apply Hu].
    rewrite filter_comm.
    pose proof (filter_length_le
                  (fun g' => negb (Grade.id g' =? Grade.id g))
                  (grades_of st eid)).
    specialize (Hu eid). unfold grades_of in *. lia.
  - rewrite grades_of_update, length_map. apply Hu.
  - rewrite grades_of_add.
    destruct (Enrollment.id e =? eid) eqn:Heq.
    + apply Z.eqb_eq in Heq. subst eid.
      rewrite (Enrollment_grade_none _ _ Hg). simpl. lia.
    + rewrite app_nil_r. apply Hu.
Qed.

Lemma store_steps_unique_grade (st st' : store) :
  store_steps st st' -> unique_grade_enrollment st ->
  unique_grade_enrollment st'.
Proof.
  induction 1 as [|st1 st2 _ IH Hstep]; intros Hu; [exact Hu|].
  apply (store_step_unique_grade st1); auto.
Qed.

Lemma Enrollment_grade_update (st : store) (e : Enrollment.t) (g : Grade.t)
    (v : float) :
  Enrollment_grade st e = Some g ->
  Enrollment_grade (update_grade_value st g v) e = Some (overwritten g v).
Proof.
  rewrite !Enrollment_grade_first, grades_of_update.
  destruct (grades_of st (Enrollment.id e)) as [|g0 l]; [discriminate|].
  cbn [first hd_error map]. intros [= ->]. now rewrite Z.eqb_refl.
Qed.

Lemma update_grade_value_ids (st : store) (g : Grade.t) (v : float) :
  map Grade.id (grades (update_grade_value st g v)) = map Grade.id (grades st)
  /\ map Grade.enrollment_id (grades (update_grade_value st g v))
     = map Grade.enrollment_id (grades st).
Proof.
  unfold update_grade_value. simpl. rewrite !map_map.
  split; apply map_ext; intros x;
    destruct (Grade.id x =? Grade.id g); reflexivity.
Qed.

Lemma update_grade_value_others (st : store) (g g' : Grade.t) (v : float) :
  Grade.id g' <> Grade.id g ->
  In g' (grades (update_grade_value st g v)) <-> In g' (grades st).
Proof.
  intros Hne. unfold update_grade_value. simpl. rewrite in_map_iff. split.
  - intros [x [Hx Hin]].
    destruct (Grade.id x =? Grade.id g) eqn:Heq.
    + subst g'. simpl in Hne. lia.
    + now subst x.
  - intros Hin. exists g'. split; [|assumption].
    destruct (Grade.id g' =? Grade.id g) eqn:Heq; [lia|reflexivity].
Qed.

Lemma float_not_below_zero (v : float) :
  float_lt v float_0 = false <->
  v = S754_nan \/ SFleb float_0 v = true.
Proof.
  unfold float_lt, float_0, SFltb, SFleb.
  destruct v as [s|s| |s m e]; try destruct s; simpl;
    intuition discriminate.
Qed.

Lemma float_not_above_100 (v : float) :
  float_gt v float_100 = false <->
  v = S754_nan \/ SFleb v float_100 = true.
Proof.
  unfold float_gt, float_100, SFltb, SFleb.
  generalize 7036874417766400%positive as m100.
  generalize (-46) as e100. intros e100 m100.
  destruct v as [s|s| |s m e]; try destruct s; cbn [SFcompare];
    try (intuition discriminate).
  rewrite (Z.compare_antisym e e100).
  destruct (e ?= e100) eqn:He; cbn [CompOpp]; try (intuition discriminate).
  assert (Hm : Pos.compare_cont Eq m100 m
               = CompOpp (Pos.compare_cont Eq m m100))
    by (symmetry; apply (Pos.compare_cont_antisym m m100 Eq)).
  rewrite Hm.
  destruct (Pos.compare_cont Eq m m100); cbn [CompOpp];
    intuition discriminate.
Qed.

Lemma float_in_range (v : float) :
  SFleb float_0 v = true /\ SFleb v float_100 = true <->
  float_lt v float_0 = false /\ float_gt v float_100 = false
  /\ v <> S754_nan.
Proof.
  split.
  - intros [H0 H100]. split; [|split].
    + apply float_not_below_zero. now right.
    + apply float_not_above_100. now right.
    + intros ->. discriminate H0.
  - intros (Hlo & Hhi & Hnan). split.
    + apply float_not_below_zero in Hlo. destruct Hlo; [contradiction|auto].
    + apply float_not_above_100 in Hhi. destruct Hhi; [contradiction|auto].
Qed.

Lemma stored_grade_value_some (v stored : float) :
  stored_grade_value v = Some stored ->
  v <> S754_nan
  /\ (stored = v \/ (v = S754_zero true /\ stored = S754_zero false)).
Proof.
  destruct v as [sg|sg| |sg m e]; simpl; intros H;
    try discriminate H; injection H as <-.
  - split; [discriminate|]. destruct sg; auto.
  - split; [discriminate|]. now left.
  - split; [discriminate|]. now left.
Qed.

Lemma stored_grade_value_not_nan (v : float) :
  v <> S754_nan -> exists stored, stored_grade_value v = Some stored.
Proof.
  destruct v; simpl; intros H; try (eexists; reflexivity).
  now contradiction H.
Qed.

Lemma teacher_edit_grade_accepts (float_of_str : string -> option float)
    (s : session_data) (st : store) (enrollment_id : Z) (e : Enrollment.t)
    (req : request) (v stored : float) :
  s_role s = "teacher" ->
  Enrollment_get st enrollment_id = Some e ->
  teaches st (s_user_id s) (Enrollment.course_id e) ->
  form_grade float_of_str req = Some v ->
  float_lt v float_0 = false ->
  float_gt v float_100 = false ->
  stored_grade_value v = Some stored ->
  teacher_edit_grade float_of_str enrollment_id req
    {| db := st; sess := Some s |} =
  (reply_grade_updated (Enrollment.course_id e),
   {| db := upsert_grade st e stored; sess := Some s |}).
Proof.
  intros Hrole Hget Hteach Hv Hlo Hhi Hstored.
  rewrite (teacher_edit_grade_value float_of_str s st enrollment_id e req v)
    by assumption.
  now rewrite Hlo, Hhi, Hstored.
Qed.

(** A grade edit answered with the success reply: the value was in range,
    the column kept it as [stored], and the write was the upsert of
    [stored]. *)
Lemma teacher_edit_grade_success (float_of_str : string -> option float)
    (s : session_data) (st : store) (enrollment_id : Z) (e : Enrollment.t)
    (req : request) (v : float) :
  s_role s = "teacher" ->
  Enrollment_get st enrollment_id = Some e ->
  teaches st (s_user_id s) (Enrollment.course_id e) ->
  form_grade float_of_str req = Some v ->
  fst (teacher_edit_grade float_of_str enrollment_id req
         {| db := st; sess := Some s |})
  = reply_grade_updated (Enrollment.course_id e) ->
  float_lt v float_0 = false
  /\ float_gt v float_100 = false
  /\ exists stored,
       stored_grade_value v = Some stored
       /\ teacher_edit_grade float_of_str enrollment_id req
            {| db := st; sess := Some s |}
          = (reply_grade_updated (Enrollment.course_id e),
             {| db := upsert_grade st e stored; sess := Some s |}).
Proof.
  intros Hrole Hget Hteach Hv.
  rewrite (teacher_edit_grade_value float_of_str s st enrollment_id e req v)
    by assumption.
  destruct (float_lt v float_0) eqn:Hlo; simpl;
    [unfold reply_grade_out_of_range, reply_grade_updated, flash_return;
     intros H; discriminate H|].
  destruct (float_gt v float_100) eqn:Hhi; simpl;
    [unfold reply_grade_out_of_range, reply_grade_updated, flash_return;
     intros H; discriminate H|].
  destruct (stored_grade_value v) as [stored|] eqn:Hstored; simpl;
    [|unfold reply_500, reply_grade_updated, flash_return;
      intros H; discriminate H].
  intros _. repeat split. now exists stored.
Qed.

Lemma teacher_edit_grade_in_range (float_of_str : string -> option float)
    (s : session_data) (st : store) (enrollment_id : Z) (e : Enrollment.t)
    (req : request) (v : float) :
  s_role s = "teacher" ->
  Enrollment_get st enrollment_id = Some e ->
  teaches st (s_user_id s) (Enrollment.course_id e) ->
  form_grade float_of_str req = Some v ->
  SFleb float_0 v = true ->
  SFleb v float_100 = true ->
  exists stored,
    stored_grade_value v = Some stored
    /\ teacher_edit_grade float_of_str enrollment_id req
         {| db := st; sess := Some s |}
       = (reply_grade_updated (Enrollment.course_id e),
          {| db := upsert_grade st e stored; sess := Some s |}).
Proof.
  intros Hrole Hget Hteach Hv H0 H100.
  destruct (proj1 (float_in_range v) (conj H0 H100)) as (Hlo & Hhi & Hnan).
  destruct (stored_grade_value_not_nan v Hnan) as [stored Hstored].
  exists stored. split; [assumption|].
  now apply (teacher_edit_grade_accepts float_of_str s st enrollment_id e
               req v stored).
Qed.

(** C5. At most one grade row references each enrollment, and every
    sequence of requests preserves this.  A grade edit succeeds exactly when
    the value passes the range check and is not NaN.  A successful edit
    overwrites the value of the existing grade row in place (same rows, same
    ids, rows with other ids untouched) and appends a new row when there is
    none; the row holds the submitted value as the column keeps it, which
    is the value itself, +0.0 for -0.0.  Two successive successful edits of
    an enrollment that had at most one grade row leave exactly one, holding
    the value of the second edit. *)
Theorem grade_upsert
    (check_password_hash : string -> string -> bool)
    (float_of_str : string -> option float) :
  (forall st cs,
     unique_grade_enrollment st ->
     unique_grade_enrollment (run check_password_hash float_of_str st cs))
  /\ (forall (s : session_data) st enrollment_id e req v,
        s_role s = "teacher" ->
        Enrollment_get st enrollment_id = Some e ->
        teaches st (s_user_id s) (Enrollment.course_id e) ->
        form_grade float_of_str req = Some v ->
        let result :=
          teacher_edit_grade float_of_str enrollment_id req
            {| db := st; sess := Some s |} in
        let st' := db (snd result) in
        (fst result = reply_grade_updated (Enrollment.course_id e)
         <-> float_lt v float_0 = false /\ float_gt v float_100 = false
             /\ v <> S754_nan)
        /\ (fst result = reply_grade_updated (Enrollment.course_id e) ->
            exists stored,
              stored_grade_value v = Some stored
              /\ (stored = v
                  \/ (v = S754_zero true /\ stored = S754_zero false))
              /\ (forall g,
                    Enrollment_grade st e = Some g ->
                    map Grade.id (grades st') = map Grade.id (grades st)
                    /\ map Grade.enrollment_id (grades st')
                       = map Grade.enrollment_id (grades st)
                    /\ Enrollment_grade st' e = Some (overwritten g stored)
                    /\ (forall g', Grade.id g' <> Grade.id g ->
                                   (In g' (grades st') <-> In g' (grades st))))
              /\ (Enrollment_grade st e = None ->
                  grades st' =
                  (grades st ++
                   [Grade.mk (next_id (map Grade.id (grades st)))
                             (Enrollment.id e) stored])%list)))
  /\ (forall (s : session_data) st enrollment_id e req1 req2 v1 v2,
        s_role s = "teacher" ->
        Enrollment_get st enrollment_id = Some e ->
        teaches st (s_user_id s) (Enrollment.course_id e) ->
        form_grade float_of_str req1 = Some v1 ->
        form_grade float_of_str req2 = Some v2 ->
        (List.length (grades_of st (Enrollment.id e)) <= 1)%nat ->
        let r1 :=
          teacher_edit_grade float_of_str enrollment_id req1
            {| db := st; sess := Some s |} in
        let r2 := teacher_edit_grade float_of_str enrollment_id req2 (snd r1) in
        fst r1 = reply_grade_updated (Enrollment.course_id e) ->
        fst r2 = reply_grade_updated (Enrollment.course_id e) ->
        exists stored2,
          stored_grade_value v2 = Some stored2
          /\ (stored2 = v2
              \/ (v2 = S754_zero true /\ stored2 = S754_zero false))
          /\ grade_values (db (snd r2)) (Enrollment.id e) = [stored2]).
Proof.
  split; [|split].
  - intros st cs Hu.
    apply (store_steps_unique_grade st); [apply run_steps|exact Hu].
  - intros s st eid e req v Hrole Hget Hteach Hv result st'.
    subst st' result. split.
    + split.
      * intros Hok.
        destruct (teacher_edit_grade_success float_of_str s st eid e req v
                    Hrole Hget Hteach Hv Hok)
          as (Hlo & Hhi & stored & Hstored & _).
        repeat split; try assumption.
        apply (stored_grade_value_some v stored Hstored).
      * intros (Hlo & Hhi & Hnan).
        destruct (stored_grade_value_not_nan v Hnan) as [stored Hstored].
        now rewrite (teacher_edit_grade_accepts float_of_str s st eid e req
                       v stored).
    + intros Hok.
      destruct (teacher_edit_grade_success float_of_str s st eid e req v
                  Hrole Hget Hteach Hv Hok)
        as (Hlo & Hhi & stored & Hstored & Hres).
      rewrite Hres. cbn [snd db]. exists stored.
      split; [assumption|].
      split; [apply (stored_grade_value_some v stored Hstored)|].
      unfold upsert_grade. split.
      * intros g Hg. rewrite Hg.
        destruct (update_grade_value_ids st g stored) as [Hids Heids].
        split; [assumption|]. split; [assumption|].
        split; [now apply Enrollment_grade_update|].
        intros g' Hne. now apply update_grade_value_others.
      * intros Hg. now rewrite Hg.
  - intros s st eid e req1 req2 v1 v2 Hrole Hget Hteach Hv1 Hv2 Hle r1 r2
           Hok1 Hok2.
    destruct (teacher_edit_grade_success float_of_str s st eid e req1 v1
                Hrole Hget Hteach Hv1 Hok1)
      as (_ & _ & stored1 & Hstored1 & Hres1).
    subst r2. subst r1. rewrite Hres1 in *. cbn [snd] in *.
    destruct (upsert_grade_other_tables st e stored1) as (_ & _ & Hen & Htc).
    assert (Hget' : Enrollment_get (upsert_grade st e stored1) eid = Some e)
      by (unfold Enrollment_get in *; now rewrite Hen).
    assert (Hteach' : teaches (upsert_grade st e stored1) (s_user_id s)
                        (Enrollment.course_id e))
      by (unfold teaches in *; now rewrite Htc).
    destruct (teacher_edit_grade_success float_of_str s _ eid e req2 v2
                Hrole Hget' Hteach' Hv2 Hok2)
      as (_ & _ & stored2 & Hstored2 & Hres2).
    rewrite Hres2. cbn [snd db]. exists stored2.
    split; [assumption|].
    split; [apply (stored_grade_value_some v2 stored2 Hstored2)|].
    apply grade_values_upsert.
    pose proof (grade_values_upsert st e stored1 Hle) as H1.
    unfold grade_values in H1.
    apply (f_equal (@List.length float)) in H1.
    rewrite length_map in H1. simpl in H1. lia.
Qed.

Lemma grade_upsert_witness :
  exists stored2,
    stored_grade_value float_100 = Some stored2
    /\ (stored2 = float_100
        \/ (float_100 = S754_zero true /\ stored2 = S754_zero false))
    /\ grade_values
         (db (snd (teacher_edit_grade literal_float_of_str 1
                     (post [("grade", "100")])
                     (snd (teacher_edit_grade literal_float_of_str 1
                             (post [("grade", "0")])
                             {| db := sample_store;
                                sess := teacher1_session |})))))
         1
       = [stored2].
Proof.
  destruct (grade_upsert plain_check_password_hash literal_float_of_str)
    as (_ & _ & H).
  apply (H (mk_session 4 "teacher1" "teacher") sample_store 1
           (Enrollment.mk 1 2 1) (post [("grade", "0")])
           (post [("grade", "100")]) float_0 float_100);
    try reflexivity.
  exists (TeacherCourse.mk 1 4 1). simpl. auto.
Defined.

(** ** Dropping *)

Lemma first_singleton {A : Type} (l : list A) (a : A) :
  first l = Some a -> (List.length l <= 1)%nat -> l = [a].
Proof.
  destruct l as [|x [|y l]]; simpl; intros Hf Hle;
    [discriminate|congruence|lia].
Qed.


Lemma In_delete_enrollments (st : store) (e e' : Enrollment.t) :
  NoDup (map Enrollment.id (enrollments st)) ->
  In e (enrollments st) ->
  In e' (enrollments (delete_enrollment st e)) <->
  In e' (enrollments st) /\ e' <> e.
Proof.
  intros Hpk He. unfold delete_enrollment. simpl. rewrite filter_In.
  split; intros [Hin Hne]; split; auto.
  - intros ->. rewrite Z.eqb_refl in Hne. discriminate.
  - destruct (Enrollment.id e' =? Enrollment.id e) eqn:Heq; [|reflexivity].
    exfalso. apply Hne.
    apply (NoDup_map_inj_in Enrollment.id (enrollments st)); auto. lia.
Qed.

Lemma In_delete_grades (st : store) (e : Enrollment.t) (g' : Grade.t) :
  NoDup (map Grade.id (grades st)) ->
  unique_grade_enrollment st ->
  In g' (grades (delete_enrollment st e)) <->
  In g' (grades st) /\ Grade.enrollment_id g' <> Enrollment.id e.
Proof.
  intros Hpk Hu. unfold delete_enrollment. simpl.
  destruct (Enrollment_grade st e) as [g|] eqn:Hg.
  - assert (Hrows : grades_of st (Enrollment.id e) = [g]).
    { apply first_singleton; [|apply Hu].
      now rewrite <- Enrollment_grade_first. }
    assert (Hin_g : In g (grades_of st (Enrollment.id e)))
      by (rewrite Hrows; now left).
    apply filter_In in Hin_g. destruct Hin_g as [Hin_g Heid_g].
    rewrite filter_In. split; intros [Hin Hne]; split; auto.
    + intros Heid.
      assert (Hin' : In g' (grades_of st (Enrollment.id e))).
      { apply filter_In. split; [assumption|lia]. }
      rewrite Hrows in Hin'. destruct Hin' as [->|[]].
      rewrite Z.eqb_refl in Hne. discriminate.
    + destruct (Grade.id g' =? Grade.id g) eqn:Heq; [|reflexivity].
      exfalso. apply Hne.
      assert (g' = g) as ->; [|lia].
      apply (NoDup_map_inj_in Grade.id (grades st)); auto. lia.
  - apply Enrollment_grade_none in Hg.
    split; [|tauto]. intros Hin. split; [assumption|].
    intros Heid.
    assert (Hin' : In g' (grades_of st (Enrollment.id e))).
    { apply filter_In. split; [assumption|lia]. }
    rewrite Hg in Hin'. contradiction.
Qed.



Lemma sample_store_constraints : constraints sample_store.
Proof.
  constructor.
  - repeat constructor; simpl; intuition discriminate.
  - repeat constructor; simpl; intuition discriminate.
  - repeat constructor; simpl; intuition discriminate.
  - intros u c. unfold enrollments_by_user_course, sample_store.
    cbn [enrollments filter Enrollment.user_id Enrollment.course_id].
    destruct (Z.eqb_spec 2 u), (Z.eqb_spec 3 u), (Z.eqb_spec 1 c),
      (Z.eqb_spec 2 c); simpl; lia.
  - intros eid. unfold grades_of, sample_store.
    cbn [grades filter Grade.enrollment_id].
    destruct (Z.eqb_spec 1 eid), (Z.eqb_spec 2 eid), (Z.eqb_spec 3 eid);
      simpl; lia.
  - intros e He. simpl in *. intuition (subst; simpl; auto).
  - intros g Hg. simpl in *. intuition (subst; simpl; auto).
Qed.


(** Dropping a graded enrollment of the sample data removes its grade. *)
Example drop_cascades_grade :
  let st' := scenario_run sample_store
               [mk_call student1_session (r_student_drop 1) (post [])] in
  map Enrollment.id (enrollments st') = [2; 3]
  /\ map Grade.enrollment_id (grades st') = [2; 3].
Proof. vm_compute. split; reflexivity. Qed.

(** ** Failures write nothing *)

(** C7. Whenever a request (enroll, drop, grade edit or any other route)
    is answered with a failure, the world after it is the world before it:
    the database and the session are unchanged. *)
Theorem failure_changes_nothing
    (check_password_hash : string -> string -> bool)
    (float_of_str : string -> option float) (st : store) (c : call) :
  is_error (fst (serve check_password_hash float_of_str st c)) = true ->
  snd (serve check_password_hash float_of_str st c)
  = {| db := st; sess := cookie c |}.
Proof.
  destruct c as [s r req]. unfold serve.
  destruct r; simpl;
    unfold int_rule, post_only, login, logout, student_enroll, student_drop,
           teacher_edit_grade, login_required, role_required; simpl;
    repeat (case_split; simpl; try reflexivity);
    intros H; try discriminate H; try reflexivity.
Qed.

Lemma failure_changes_nothing_witness :
  is_error
    (fst (scenario_serve sample_store
            (mk_call teacher1_session (r_teacher_edit_grade 1)
                     (post [("grade", "-0.01")])))) = true
  /\ snd (scenario_serve sample_store
            (mk_call teacher1_session (r_teacher_edit_grade 1)
                     (post [("grade", "-0.01")])))
     = {| db := sample_store; sess := teacher1_session |}.
Proof.
  split; [reflexivity|].
  exact (failure_changes_nothing plain_check_password_hash
           literal_float_of_str sample_store
           (mk_call teacher1_session (r_teacher_edit_grade 1)
                    (post [("grade", "-0.01")])) eq_refl).
Defined.

(** ** Authorization before validation *)

(** C8. A teacher with no assignment to the course of an existing
    enrollment gets the forbidden reply from [teacher_edit_grade] whatever
    the request carries (a valid grade, an invalid one, one that does not
    convert, or none), and the world is unchanged. *)
Theorem unassigned_teacher_forbidden (float_of_str : string -> option float)
    (s : session_data) (st : store) (enrollment_id : Z) (e : Enrollment.t)
    (req : request) :
  s_role s = "teacher" ->
  Enrollment_get st enrollment_id = Some e ->
  ~ teaches st (s_user_id s) (Enrollment.course_id e) ->
  teacher_edit_grade float_of_str enrollment_id req
    {| db := st; sess := Some s |}
  = (reply_grade_forbidden, {| db := st; sess := Some s |}).
Proof.
  intros Hrole Hget Hnot.
  rewrite teacher_edit_grade_unfold by assumption. simpl. rewrite Hget.
  destruct (first (teacher_courses_by st (s_user_id s)
                     (Enrollment.course_id e))) eqn:Hf; [|reflexivity].
  exfalso. apply Hnot. apply teaches_first. congruence.
Qed.

Lemma unassigned_teacher_forbidden_witness :
  (s_role (mk_session 3 "T" "teacher") = "teacher"
   /\ Enrollment_get scenario_store_Y 1 = Some (Enrollment.mk 1 1 2)
   /\ ~ teaches scenario_store_Y 3 2)
  /\ teacher_edit_grade literal_float_of_str 1 (post [("grade", "100")])
       {| db := scenario_store_Y; sess := session_T |}
     = (reply_grade_forbidden,
        {| db := scenario_store_Y; sess := session_T |}).
Proof.
  assert (Hnot : ~ teaches scenario_store_Y 3 2).
  { intros [tc [Hin [Ht Hc]]]. vm_compute in Hin.
    destruct Hin as [<-|[]]. discriminate Hc. }
  split; [split; [reflexivity|split; [reflexivity|exact Hnot]]|].
  exact (unassigned_teacher_forbidden literal_float_of_str
           (mk_session 3 "T" "teacher") scenario_store_Y 1
           (Enrollment.mk 1 1 2) (post [("grade", "100")])
           eq_refl eq_refl Hnot).
Defined.

(** ** Login failures *)

(** C9. For a POST to [login], the reply to a failed verification is fixed
    by the request alone: the same reply, a failure, is returned when no
    user has the submitted name and when the user exists but the password
    check fails, in any database, and the world (session included) is left
    unchanged.  With a non-empty name and password it is the
    invalid-username-or-password reply. *)
Theorem login_failure_indistinguishable
    (check_password_hash : string -> string -> bool) (req : request) :
  method req = "POST" ->
  let username := form_field req "username" in
  let password := form_field req "password" in
  exists r : reply,
    is_error r = true
    /\ (username <> "" -> password <> "" -> r = reply_login_invalid)
    /\ (forall st s0,
          users_by_username st username = [] ->
          login check_password_hash req {| db := st; sess := s0 |}
          = (r, {| db := st; sess := s0 |}))
    /\ (forall st s0 user,
          first (users_by_username st username) = Some user ->
          check_password_hash (User.password_hash user) password = false ->
          login check_password_hash req {| db := st; sess := s0 |}
          = (r, {| db := st; sess := s0 |})).
Proof.
  intros Hpost username password.
  exists (if String.eqb username "" || String.eqb password ""
          then reply_login_required_fields else reply_login_invalid).
  split; [|split; [|split]].
  - destruct (String.eqb username "" || String.eqb password "");
      reflexivity.
  - intros Hu Hp.
    apply String.eqb_neq in Hu, Hp. now rewrite Hu, Hp.
  - intros st s0 Hmissing. unfold login. rewrite Hpost. simpl.
    fold username password.
    destruct (String.eqb username "" || String.eqb password "");
      [reflexivity|].
    now rewrite Hmissing.
  - intros st s0 user Hfound Hcheck. unfold login. rewrite Hpost. simpl.
    fold username password.
    destruct (String.eqb username "" || String.eqb password "");
      [reflexivity|].
    now rewrite Hfound, Hcheck.
Qed.

Lemma login_failure_indistinguishable_witness :
  method (post [("username", "nobody"); ("password", "student123")]) = "POST"
  /\ fst (login plain_check_password_hash
            (post [("username", "nobody"); ("password", "student123")])
            {| db := sample_store; sess := None |})
     = fst (login plain_check_password_hash
              (post [("username", "nobody"); ("password", "student123")])
              {| db := sample_store_with_nobody; sess := None |}).
Proof.
  split; [reflexivity|].
  destruct (login_failure_indistinguishable plain_check_password_hash
              (post [("username", "nobody"); ("password", "student123")])
              eq_refl) as (r & _ & _ & Hmissing & Hmismatch).
  rewrite (Hmissing sample_store None eq_refl).
  rewrite (Hmismatch sample_store_with_nobody None
             (User.mk 5 "nobody" "plain$other" "student") eq_refl eq_refl).
  reflexivity.
Defined.

(** A login with the right password, for comparison: the session is set. *)
Example login_success :
  login plain_check_password_hash
    (post [("username", " student1 "); ("password", "student123")])
    {| db := sample_store; sess := None |}
  = (reply_welcome "student1",
     {| db := sample_store; sess := student1_session |}).
Proof. reflexivity. Qed.

(** ** The omitted grade *)

(** C10. When an authorized teacher posts a grade edit without a 'grade'
    field, the value is [float(0)]: it passes the range check, the request
    succeeds, and the grade of the enrollment is created with, or
    overwritten by, 0.0. *)
Theorem omitted_grade_is_zero (float_of_str : string -> option float)
    (s : session_data) (st : store) (enrollment_id : Z) (e : Enrollment.t)
    (req : request) :
  s_role s = "teacher" ->
  Enrollment_get st enrollment_id = Some e ->
  teaches st (s_user_id s) (Enrollment.course_id e) ->
  form_get (form req) "grade" = None ->
  let result :=
    teacher_edit_grade float_of_str enrollment_id req
      {| db := st; sess := Some s |} in
  let st' := db (snd result) in
  fst result = reply_grade_updated (Enrollment.course_id e)
  /\ is_error (fst result) = false
  /\ (Enrollment_grade st e = None ->
      grades st' =
      (grades st ++
       [Grade.mk (next_id (map Grade.id (grades st))) (Enrollment.id e)
                 float_0])%list)
  /\ (forall g, Enrollment_grade st e = Some g ->
                Enrollment_grade st' e = Some (overwritten g float_0)
                /\ map Grade.id (grades st') = map Grade.id (grades st))
  /\ ((List.length (grades_of st (Enrollment.id e)) <= 1)%nat ->
      grade_values st' (Enrollment.id e) = [float_0]).
Proof.
  intros Hrole Hget Hteach Habsent result st'. subst st' result.
  assert (Hv : form_grade float_of_str req = Some float_0).
  { unfold form_grade. now rewrite Habsent. }
  rewrite (teacher_edit_grade_accepts float_of_str s st enrollment_id e req
             float_0 float_0 Hrole Hget Hteach Hv eq_refl eq_refl eq_refl).
  cbn [fst snd db].
  split; [reflexivity|]. split; [reflexivity|]. split; [|split].
  - intros Hg. unfold upsert_grade. now rewrite Hg.
  - intros g Hg. unfold upsert_grade. rewrite Hg. split.
    + now apply Enrollment_grade_update.
    + apply update_grade_value_ids.
  - apply grade_values_upsert.
Qed.

Lemma omitted_grade_is_zero_witness :
  (s_role (mk_session 4 "teacher1" "teacher") = "teacher"
   /\ Enrollment_get sample_store 1 = Some (Enrollment.mk 1 2 1)
   /\ teaches sample_store 4 1
   /\ form_get (form (post [])) "grade" = None)
  /\ Enrollment_grade
       (db (snd (teacher_edit_grade literal_float_of_str 1 (post [])
                   {| db := sample_store; sess := teacher1_session |})))
       (Enrollment.mk 1 2 1)
     = Some (Grade.mk 1 1 float_0).
Proof.
  assert (Ht : teaches sample_store 4 1).
  { exists (TeacherCourse.mk 1 4 1). simpl. auto. }
  split; [split; [reflexivity|split; [reflexivity|split;
                                      [exact Ht|reflexivity]]]|].
  destruct (omitted_grade_is_zero literal_float_of_str
              (mk_session 4 "teacher1" "teacher") sample_store 1
              (Enrollment.mk 1 2 1) (post []) eq_refl eq_refl Ht eq_refl)
    as (_ & _ & _ & H & _).
  destruct (H (Grade.mk 1 1 float_85_5) eq_refl) as [H' _].
  exact H'.
Defined.

(** ** The declared constraints are invariants *)

Lemma empty_store_constraints : constraints empty_store.
Proof.
  constructor.
  - constructor.
  - constructor.
  - constructor.
  - intros u c. simpl. lia.
  - intros eid. simpl. lia.
  - intros e [].
  - intros g [].
Qed.

Lemma store_step_constraints (st st' : store) :
  store_step st st' -> constraints st -> constraints st'.
Proof.
  intros Hstep Hc. constructor.
  - rewrite (store_step_courses _ _ Hstep). apply Hc.
  - destruct Hstep; try apply Hc.
    + unfold add_enrollment. simpl.
      apply NoDup_map_snoc; [apply Hc|apply next_id_fresh].
    + simpl. apply NoDup_map_filter, Hc.
  - destruct Hstep as [| | e He | e g v He Hg | e v He Hg]; try apply Hc.
    + simpl. destruct (Enrollment_grade st e);
        [apply NoDup_map_filter|]; apply Hc.
    + rewrite (proj1 (update_grade_value_ids st g v)). apply Hc.
    + unfold add_grade. simpl.
      apply NoDup_map_snoc; [apply Hc|apply next_id_fresh].
  - apply (store_step_unique_enrollment st); [assumption|apply Hc].
  - apply (store_step_unique_grade st); [assumption|apply Hc].
  - rewrite (store_step_courses _ _ Hstep). intros e' He'.
    destruct Hstep as [|u c course Hget Hnot Hfull| e He | e g v He Hg
                       | e v He Hg];
      try (apply (enrollment_course_fk st Hc); exact He').
    + unfold add_enrollment in He'. simpl in He'.
      apply in_app_or in He'. destruct He' as [He'|[<-|[]]].
      * now apply (enrollment_course_fk st Hc).
      * simpl. apply Course_get_id in Hget. destruct Hget as [Hin <-].
        now apply in_map.
    + simpl in He'. apply filter_In in He'.
      apply (enrollment_course_fk st Hc), He'.
  - intros g' Hg'.
    destruct Hstep as [|u c course Hget Hnot Hfull| e He | e g v He Hg
                       | e v He Hg].
    + now apply (grade_enrollment_fk st Hc).
    + unfold add_enrollment. simpl. rewrite map_app. apply in_or_app. left.
      now apply (grade_enrollment_fk st Hc).
    + apply In_delete_grades in Hg'; [|apply Hc|apply Hc].
      destruct Hg' as [Hin Hne].
      apply (grade_enrollment_fk st Hc) in Hin.
      apply in_map_iff in Hin. destruct Hin as [e' [Hid He']].
      simpl. apply in_map_iff. exists e'. split; [assumption|].
      apply filter_In. split; [assumption|].
      destruct (Enrollment.id e' =? Enrollment.id e) eqn:Heq;
        [lia|reflexivity].
    + unfold update_grade_value in Hg'. simpl in Hg'.
      apply in_map_iff in Hg'. destruct Hg' as [x [<- Hx]].
      apply (grade_enrollment_fk st Hc) in Hx.
      destruct (Grade.id x =? Grade.id g); exact Hx.
    + unfold add_grade in Hg'. simpl in Hg'.
      apply in_app_or in Hg'. destruct Hg' as [Hg'|[<-|[]]].
      * now apply (grade_enrollment_fk st Hc).
      * simpl. now apply in_map.
Qed.

(** X19. Every sequence of requests to the application's own rules
    ([login], [logout], [student_enroll], [student_drop],
    [teacher_edit_grade]) keeps the primary keys, the two unique constraints
    and the foreign keys of enrollments and grades.  The views of
    Flask-Admin are not rules of the application and are not covered. *)
Lemma constraints_preserved
    (check_password_hash : string -> string -> bool)
    (float_of_str : string -> option float) (st : store) (cs : list call) :
  constraints st ->
  constraints (run check_password_hash float_of_str st cs).
Proof.
  intros Hc.
  induction (run_steps check_password_hash float_of_str st cs)
    as [|st1 st2 _ IH Hstep]; [exact Hc|].
  now apply (store_step_constraints st1).
Qed.

(** ** Remarks on the range check *)

(** NaN compares false with both bounds, so it is not answered with the
    out-of-range reply; the commit then fails on the NOT NULL column and the
    request ends in a server error with nothing written. *)
Example nan_grade_server_error :
  teacher_edit_grade literal_float_of_str 1 (post [("grade", "nan")])
    {| db := sample_store; sess := teacher1_session |}
  = (reply_500, {| db := sample_store; sess := teacher1_session |}).
Proof. reflexivity. Qed.

(** A grade that does not convert is answered with the invalid-grade reply,
    not with the out-of-range one. *)
Example unparsable_grade_invalid :
  teacher_edit_grade literal_float_of_str 1 (post [("grade", "A+")])
    {| db := sample_store; sess := teacher1_session |}
  = (reply_grade_invalid 1,
     {| db := sample_store; sess := teacher1_session |}).
Proof. reflexivity. Qed.

(** ** The decorators, seen through their checks *)

Lemma login_required_check (f : view) (req : request) (w : world) :
  login_required f req w =
  match login_check (sess w) with
  | Some r => (r, w)
  | None => f req w
  end.
Proof.
  unfold login_required, login_check.
  destruct (negb (logged_in (sess w))); reflexivity.
Qed.

Lemma role_required_check (allowed_roles : list string)
    (f : session_data -> view) (req : request) (w : world) :
  role_required allowed_roles f req w =
  match role_check allowed_roles (sess w) with
  | inl r => (r, w)
  | inr d => f d req w
  end.
Proof.
  unfold role_required, role_check.
  destruct (sess w) as [d|]; [|reflexivity].
  destruct (negb (existsb (String.eqb (s_role d)) allowed_roles));
    reflexivity.
Qed.

Lemma role_check_member (role : string) (s : session_data) :
  s_role s = role -> role_check [role] (Some s) = inr s.
Proof.
  intros <-. unfold role_check. simpl. now rewrite String.eqb_refl.
Qed.

Lemma gated_page {C : Type} (role : string)
    (f : session_data -> world -> outcome C) (st : store)
    (s : session_data) :
  s_role s = role ->
  login_required_page (role_required_page [role] f)
    {| db := st; sess := Some s |}
  = f s {| db := st; sess := Some s |}.
Proof.
  intros Hrole. unfold login_required_page, role_required_page, login_check.
  cbn [sess logged_in negb].
  now rewrite (role_check_member role s Hrole).
Qed.

(** ** The enrollment status document *)




(** ** The add page and the enroll request *)

Lemma Course_get_in (st : store) (c : Course.t) :
  NoDup (map Course.id (courses st)) ->
  In c (courses st) ->
  Course_get st (Course.id c) = Some c.
Proof.
  intros Hpk Hin. unfold Course_get.
  destruct (find (fun c' => Course.id c' =? Course.id c) (courses st))
    as [c'|] eqn:Hf.
  - apply find_some in Hf. destruct Hf as [Hin' Heq]. f_equal.
    apply (NoDup_map_inj_in Course.id (courses st)); auto. lia.
  - apply (find_none _ _ Hf) in Hin. lia.
Qed.

Lemma In_insert_by_key {A : Type} (key : A -> Z) (a x : A) (l : list A) :
  In x (insert_by_key key a l) <-> x = a \/ In x l.
Proof.
  induction l as [|b l IH]; simpl.
  - intuition.
  - destruct (key a <=? key b); simpl; rewrite ?IH; intuition.
Qed.

Lemma In_index_order {A : Type} (key : A -> Z) (x : A) (l : list A) :
  In x (index_order key l) <-> In x l.
Proof.
  induction l as [|a l IH]; simpl; [reflexivity|].
  rewrite In_insert_by_key, IH. intuition.
Qed.

Lemma length_insert_by_key {A : Type} (key : A -> Z) (a : A) (l : list A) :
  List.length (insert_by_key key a l) = S (List.length l).
Proof.
  induction l as [|b l IH]; simpl; [reflexivity|].
  destruct (key a <=? key b); simpl; [reflexivity|]. now rewrite IH.
Qed.

Lemma length_index_order {A : Type} (key : A -> Z) (l : list A) :
  List.length (index_order key l) = List.length l.
Proof.
  induction l as [|a l IH]; simpl; [reflexivity|].
  now rewrite length_insert_by_key, IH.
Qed.

Lemma In_enrollments_by_user (st : store) (u : Z) (e : Enrollment.t) :
  In e (enrollments_by_user st u) <->
  In e (enrollments st) /\ Enrollment.user_id e = u.
Proof.
  unfold enrollments_by_user. rewrite In_index_order, filter_In.
  rewrite Z.eqb_eq. reflexivity.
Qed.

Lemma enrolled_in_by_user (st : store) (u c : Z) :
  enrolled_in st u c <->
  In c (map Enrollment.course_id (enrollments_by_user st u)).
Proof.
  unfold enrolled_in. rewrite in_map_iff. split.
  - intros [e [Hin [Hu Hc]]]. exists e. split; [assumption|].
    apply In_enrollments_by_user. auto.
  - intros [e [Hc Hin]]. apply In_enrollments_by_user in Hin.
    exists e. tauto.
Qed.

Lemma enrolled_course_ids_member (st : store) (u c : Z) :
  existsb (Z.eqb c) (map Enrollment.course_id (enrollments_by_user st u))
  = is_enrolled st u c.
Proof.
  apply eq_iff_eq_true.
  rewrite existsb_exists, is_enrolled_true, enrolled_in_by_user. split.
  - intros [x [Hin Heq]]. apply Z.eqb_eq in Heq. now subst x.
  - intros Hin. exists c. split; [assumption|apply Z.eqb_refl].
Qed.

(** X2. For a student, [student_add] lists every course once, in table
    order, and each entry agrees with the enroll request for that course:
    is_enrolled is set exactly when the student has a row in the course,
    available = capacity - enrolled, is_full holds exactly when no seat is
    available, and the entry shows neither flag exactly when a
    [student_enroll] for it would succeed.  Course ids are a primary
    key. *)
Theorem student_add_agrees_with_enroll (st : store) (s : session_data)
    (req : request) :
  s_role s = "student" ->
  NoDup (map Course.id (courses st)) ->
  let w := {| db := st; sess := Some s |} in
  exists rows,
    student_add w = rendered "student_add.html" rows
    /\ map AvailableCourse.id rows = map Course.id (courses st)
    /\ forall r, In r rows ->
         (AvailableCourse.is_enrolled r = true
          <-> enrolled_in st (s_user_id s) (AvailableCourse.id r))
         /\ AvailableCourse.available r
            = AvailableCourse.capacity r - AvailableCourse.enrolled r
         /\ (AvailableCourse.is_full r = true
             <-> AvailableCourse.available r <= 0)
         /\ (AvailableCourse.is_enrolled r = false
             /\ AvailableCourse.is_full r = false
             <-> is_error (fst (student_enroll (AvailableCourse.id r) req w))
                 = false).
Proof.
  intros Hrole Hpk w. subst w.
  unfold student_add. rewrite (gated_page "student") by assumption.
  cbn [db]. eexists. split; [reflexivity|]. split.
  - rewrite map_map. reflexivity.
  - intros r Hr. apply in_map_iff in Hr. destruct Hr as [c [<- Hc]].
    unfold available_course_entry.
    cbn [AvailableCourse.id AvailableCourse.is_enrolled
         AvailableCourse.available AvailableCourse.capacity
         AvailableCourse.enrolled AvailableCourse.is_full].
    rewrite enrolled_course_ids_member.
    split; [apply is_enrolled_true|]. split; [reflexivity|].
    split; [unfold is_full; lia|].
    rewrite student_enroll_unfold by assumption.
    rewrite (Course_get_in st c Hpk Hc).
    destruct (is_enrolled st (s_user_id s) (Course.id c));
      [simpl; intuition discriminate|].
    destruct (is_full st c); simpl; intuition discriminate.
Qed.

Lemma student_add_agrees_with_enroll_witness :
  (s_role (mk_session 2 "student1" "student") = "student"
   /\ NoDup (map Course.id (courses sample_store)))
  /\ exists rows,
       student_add {| db := sample_store; sess := student1_session |}
       = rendered "student_add.html" rows
       /\ map AvailableCourse.is_enrolled rows = [true; true; false].
Proof.
  assert (Hpk : NoDup (map Course.id (courses sample_store)))
    by apply sample_store_constraints.
  split; [split; [reflexivity|exact Hpk]|].
  destruct (student_add_agrees_with_enroll sample_store
              (mk_session 2 "student1" "student") (post []) eq_refl Hpk)
    as (rows & Hrows & _).
  exists rows. split; [exact Hrows|].
  vm_compute in Hrows. injection Hrows as <-. reflexivity.
Defined.

(** ** Loops over query results *)

Lemma collect_some {A B : Type} (entry : A -> option B) (rows : list A) :
  forall bs, collect entry rows = Some bs <->
             Forall2 (fun a b => entry a = Some b) rows bs.
Proof.
  induction rows as [|a l IH]; simpl; intros bs.
  - split; [intros [= <-]; constructor|intros H; now inversion H].
  - destruct (entry a) as [b|] eqn:Ha.
    + destruct (collect entry l) as [bs'|].
      * split.
        -- intros [= <-]. constructor; [assumption|now apply IH].
        -- intros H. inversion H as [|? b0 ? bs0 Hb Hrest]; subst.
           apply IH in Hrest. congruence.
      * split; [discriminate|].
        intros H. inversion H as [|? b0 ? bs0 Hb Hrest]; subst.
        apply IH in Hrest. discriminate.
    + split; [discriminate|].
      intros H. inversion H; subst. congruence.
Qed.

Lemma collect_none {A B : Type} (entry : A -> option B) (rows : list A) :
  collect entry rows = None <-> exists a, In a rows /\ entry a = None.
Proof.
  induction rows as [|a l IH]; simpl.
  - split; [discriminate|intros [a [[] _]]].
  - destruct (entry a) as [b|] eqn:Ha.
    + destruct (collect entry l) as [bs|].
      * split; [discriminate|].
        intros [a' [[<-|Hin] Hn]]; [congruence|].
        apply proj2 in IH. discriminate IH. now exists a'.
      * split; [|reflexivity]. intros _.
        destruct (proj1 IH eq_refl) as [a' [Hin Hn]]. exists a'. auto.
    + split; [|reflexivity]. intros _. exists a. auto.
Qed.

Lemma Forall2_map_eq {A B K : Type} (R : A -> B -> Prop) (g : B -> K)
    (h : A -> K) (l : list A) (bs : list B) :
  (forall a b, R a b -> g b = h a) ->
  Forall2 R l bs -> map g bs = map h l.
Proof.
  intros Hgh H. induction H as [|a b l bs Hab _ IH]; simpl; [reflexivity|].
  now rewrite (Hgh a b Hab), IH.
Qed.

Lemma Forall2_in_right {A B : Type} (R : A -> B -> Prop) (l : list A)
    (bs : list B) (b : B) :
  Forall2 R l bs -> In b bs -> exists a, In a l /\ R a b.
Proof.
  intros H. induction H as [|a0 b0 l bs Hab _ IH]; simpl; [intros []|].
  intros [<-|Hin]; [exists a0; auto|].
  destruct (IH Hin) as [a [Ha HR]]. exists a. auto.
Qed.

Lemma Forall2_in_left {A B : Type} (R : A -> B -> Prop) (l : list A)
    (bs : list B) (a : A) :
  Forall2 R l bs -> In a l -> exists b, In b bs /\ R a b.
Proof.
  intros H. induction H as [|a0 b0 l bs Hab _ IH]; simpl; [intros []|].
  intros [<-|Hin]; [exists b0; auto|].
  destruct (IH Hin) as [b [Hb HR]]. exists b. auto.
Qed.

(** ** The student's courses *)

Lemma student_course_entry_some (st : store) (e : Enrollment.t)
    (r : StudentCourse.t) :
  student_course_entry st e = Some r ->
  StudentCourse.id r = Enrollment.course_id e
  /\ StudentCourse.grade r
     = option_map Grade.grade_value (Enrollment_grade st e)
  /\ exists course,
       Course_get st (Enrollment.course_id e) = Some course
       /\ StudentCourse.capacity r = Course.capacity course
       /\ StudentCourse.enrolled r = get_enrollment_count st course.
Proof.
  unfold student_course_entry.
  destruct (Course_get st (Enrollment.course_id e)) as [course|] eqn:Hget;
    [|discriminate].
  intros [= <-]. simpl. apply Course_get_id in Hget.
  destruct Hget as [_ Hid]. split; [assumption|]. split; [reflexivity|].
  exists course. auto.
Qed.

Lemma student_courses_rendered (st : store) (s : session_data) :
  s_role s = "student" ->
  (forall e, In e (enrollments_by_user st (s_user_id s)) ->
             Course_get st (Enrollment.course_id e) <> None) ->
  exists rows,
    student_courses {| db := st; sess := Some s |}
    = rendered "student_courses.html" rows
    /\ Forall2 (fun e r => student_course_entry st e = Some r)
               (enrollments_by_user st (s_user_id s)) rows.
Proof.
  intros Hrole Hall.
  unfold student_courses. rewrite (gated_page "student") by assumption.
  cbn [db].
  destruct (collect (student_course_entry st)
              (enrollments_by_user st (s_user_id s))) as [rows|] eqn:Hc.
  - exists rows. split; [reflexivity|]. now apply collect_some.
  - exfalso. apply collect_none in Hc. destruct Hc as [e [Hin Hn]].
    apply (Hall e Hin). unfold student_course_entry in Hn.
    destruct (Course_get st (Enrollment.course_id e)); [discriminate|].
    reflexivity.
Qed.

(** X3. For a student, [student_courses] ends in a server error when one of
    the student's enrollments has no course row; otherwise it renders as
    many entries as the student has enrollments: every entry shows the
    course of one of the student's own enrollments, with that course's
    capacity and enrollment count and the value of that enrollment's own
    grade (none when ungraded), and every enrollment of the student has
    such an entry.  A course is listed exactly when the student is enrolled
    in it.  Nothing is said about the order of the entries. *)
Theorem student_courses_lists_own (st : store) (s : session_data) :
  s_role s = "student" ->
  let w := {| db := st; sess := Some s |} in
  let own e := In e (enrollments st)
               /\ Enrollment.user_id e = s_user_id s in
  let shows r e :=
    StudentCourse.id r = Enrollment.course_id e
    /\ StudentCourse.grade r
       = option_map Grade.grade_value (Enrollment_grade st e)
    /\ exists course,
         Course_get st (Enrollment.course_id e) = Some course
         /\ StudentCourse.name r = Course.name course
         /\ StudentCourse.capacity r = Course.capacity course
         /\ StudentCourse.enrolled r = get_enrollment_count st course in
  ((exists e, own e /\ Course_get st (Enrollment.course_id e) = None) ->
   student_courses w = replied reply_500)
  /\ ((forall e, own e -> Course_get st (Enrollment.course_id e) <> None) ->
      exists rows,
        student_courses w = rendered "student_courses.html" rows
        /\ List.length rows
           = List.length
               (filter (fun e => Enrollment.user_id e =? s_user_id s)
                       (enrollments st))
        /\ (forall r, In r rows -> exists e, own e /\ shows r e)
        /\ (forall e, own e -> exists r, In r rows /\ shows r e)
        /\ (forall c, In c (map StudentCourse.id rows)
                      <-> enrolled_in st (s_user_id s) c)).
Proof.
  intros Hrole w own shows. subst w.
  assert (Hshows : forall e r, student_course_entry st e = Some r ->
                               shows r e).
  { intros e r Hentry. unfold student_course_entry in Hentry.
    destruct (Course_get st (Enrollment.course_id e)) as [course|] eqn:Hget;
      [|discriminate].
    injection Hentry as <-. unfold shows. simpl.
    destruct (Course_get_id _ _ _ Hget) as [_ Hid].
    split; [assumption|]. split; [reflexivity|]. exists course. auto. }
  split.
  - intros [e [He Hnone]].
    unfold student_courses. rewrite (gated_page "student") by assumption.
    cbn [db].
    assert (Hc : collect (student_course_entry st)
                   (enrollments_by_user st (s_user_id s)) = None).
    { apply collect_none. exists e. split.
      - now apply In_enrollments_by_user.
      - unfold student_course_entry. now rewrite Hnone. }
    now rewrite Hc.
  - intros Hall.
    destruct (student_courses_rendered st s Hrole) as (rows & Hrows & Hc).
    { intros e He. apply Hall. now apply In_enrollments_by_user. }
    exists rows. split; [exact Hrows|]. split; [|split; [|split]].
    + rewrite <- (Forall2_length Hc). unfold enrollments_by_user.
      apply length_index_order.
    + intros r Hr.
      destruct (Forall2_in_right _ _ _ _ Hc Hr) as [e [He Hentry]].
      exists e. split; [now apply In_enrollments_by_user|auto].
    + intros e He. apply In_enrollments_by_user in He.
      destruct (Forall2_in_left _ _ _ _ Hc He) as [r [Hr Hentry]].
      exists r. auto.
    + intros c.
      assert (Hids : map StudentCourse.id rows
                     = map Enrollment.course_id
                           (enrollments_by_user st (s_user_id s))).
      { apply (Forall2_map_eq _ _ _ _ _
                 (fun a b H => proj1 (student_course_entry_some st a b H)) Hc). }
      rewrite Hids. symmetry. apply enrolled_in_by_user.
Qed.

Lemma student_courses_lists_own_witness :
  s_role (mk_session 2 "student1" "student") = "student"
  /\ exists rows,
       student_courses {| db := sample_store; sess := student1_session |}
       = rendered "student_courses.html" rows
       /\ List.length rows = 2%nat
       /\ (In 2 (map StudentCourse.id rows) <-> enrolled_in sample_store 2 2).
Proof.
  split; [reflexivity|].
  destruct (student_courses_lists_own sample_store
              (mk_session 2 "student1" "student") eq_refl) as [_ H].
  destruct H as (rows & Hrows & Hlen & _ & _ & Hlisted).
  - intros e [He _]. vm_compute in He.
    destruct He as [<-|[<-|[<-|[]]]]; discriminate.
  - exists rows. split; [exact Hrows|]. split; [exact Hlen|].
    apply Hlisted.
Defined.

(** ** Enrolling and dropping as a round trip *)

Lemma delete_added_enrollment (st : store) (u c : Z) :
  grades_reference_enrollments st ->
  delete_enrollment (add_enrollment st u c)
    (Enrollment.mk (new_enrollment_id st) u c)
  = st.
Proof.
  intros Hfk.
  pose proof (enrollments_delete_added st u c) as Hen.
  assert (Hg : Enrollment_grade (add_enrollment st u c)
                 (Enrollment.mk (new_enrollment_id st) u c) = None).
  { rewrite Enrollment_grade_first. cbn [Enrollment.id].
    now rewrite no_grade_for_new_enrollment. }
  unfold delete_enrollment in *. rewrite Hg. cbn [enrollments] in Hen.
  rewrite Hen. destruct st; reflexivity.
Qed.

(** X4. When a student who is not in a course with a free seat enrolls and
    then drops it, both requests succeed and the world after the drop is
    exactly the world before the enrollment: every table, the grades
    included, is as it was (every grade is assumed to reference an existing
    enrollment). *)
Theorem enroll_then_drop_restores (s : session_data) (st : store)
    (course_id : Z) (course : Course.t) (req1 req2 : request) :
  s_role s = "student" ->
  Course_get st course_id = Some course ->
  ~ enrolled_in st (s_user_id s) course_id ->
  get_enrollment_count st course < Course.capacity course ->
  grades_reference_enrollments st ->
  let w := {| db := st; sess := Some s |} in
  let r1 := student_enroll course_id req1 w in
  let r2 := student_drop course_id req2 (snd r1) in
  fst r1 = reply_enrolled course
  /\ db (snd r1) <> st
  /\ fst r2 = reply_dropped (Course.name course)
  /\ snd r2 = w.
Proof.
  intros Hrole Hget Hnot Hfree Hfk w r1 r2. subst w.
  apply is_enrolled_false in Hnot.
  assert (Hfull : is_full st course = false) by (unfold is_full; lia).
  assert (Hr1 : r1 = (reply_enrolled course,
                      {| db := add_enrollment st (s_user_id s) course_id;
                         sess := Some s |})).
  { subst r1. rewrite student_enroll_unfold by assumption.
    now rewrite Hget, Hnot, Hfull. }
  subst r2. rewrite Hr1. cbn [fst snd db].
  rewrite student_drop_unfold by assumption.
  rewrite rows_add_enrollment, (not_enrolled_no_rows _ _ _ Hnot).
  rewrite !Z.eqb_refl. cbn [andb app first hd_error Enrollment.course_id].
  change (Course_get (add_enrollment st (s_user_id s) course_id) course_id)
    with (Course_get st course_id).
  rewrite Hget. cbn [fst snd].
  rewrite delete_added_enrollment by assumption.
  split; [reflexivity|]. split; [|split; reflexivity].
  intros Heq. apply (f_equal enrollments) in Heq.
  apply (f_equal (@List.length Enrollment.t)) in Heq.
  unfold add_enrollment in Heq. cbn [enrollments set_enrollments] in Heq.
  rewrite length_app in Heq. simpl in Heq. lia.
Qed.

Lemma enroll_then_drop_restores_witness :
  (s_role (mk_session 1 "A" "student") = "student"
   /\ Course_get scenario_store 1 = Some (Course.mk 1 "X" "CS" 1)
   /\ ~ enrolled_in scenario_store 1 1
   /\ get_enrollment_count scenario_store (Course.mk 1 "X" "CS" 1) < 1
   /\ grades_reference_enrollments scenario_store)
  /\ snd (student_drop 1 (post [])
            (snd (student_enroll 1 (post [])
                    {| db := scenario_store; sess := session_A |})))
     = {| db := scenario_store; sess := session_A |}.
Proof.
  assert (Hnot : ~ enrolled_in scenario_store 1 1)
    by (intros [e [[] _]]).
  assert (Hfk : grades_reference_enrollments scenario_store)
    by (intros g []).
  split; [repeat split; [exact Hnot|exact Hfk]|].
  destruct (enroll_then_drop_restores (mk_session 1 "A" "student")
              scenario_store 1 (Course.mk 1 "X" "CS" 1) (post []) (post [])
              eq_refl eq_refl Hnot eq_refl Hfk) as (_ & _ & _ & H).
  exact H.
Defined.

(** X5. After a successful [student_enroll], the student's course page
    lists the new course with no grade and with an enrollment count one
    above the count before, and the add page marks it as enrolled.  Every
    enrollment is assumed to reference an existing course and every grade an
    existing enrollment. *)
Theorem enrolled_course_is_listed (s : session_data) (st : store)
    (course_id : Z) (course : Course.t) (req : request) :
  s_role s = "student" ->
  Course_get st course_id = Some course ->
  ~ enrolled_in st (s_user_id s) course_id ->
  get_enrollment_count st course < Course.capacity course ->
  enrollments_reference_courses st ->
  grades_reference_enrollments st ->
  let w' := snd (student_enroll course_id req {| db := st; sess := Some s |}) in
  (exists rows r,
     student_courses w' = rendered "student_courses.html" rows
     /\ In r rows
     /\ StudentCourse.id r = course_id
     /\ StudentCourse.grade r = None
     /\ StudentCourse.enrolled r = get_enrollment_count st course + 1)
  /\ (exists rows,
        student_add w' = rendered "student_add.html" rows
        /\ forall r, In r rows -> AvailableCourse.id r = course_id ->
                     AvailableCourse.is_enrolled r = true).
Proof.
  intros Hrole Hget Hnot Hfree Hcfk Hgfk w'.
  pose proof Hnot as Hnot'. apply is_enrolled_false in Hnot'.
  assert (Hfull : is_full st course = false) by (unfold is_full; lia).
  assert (Hw' : w' = {| db := add_enrollment st (s_user_id s) course_id;
                        sess := Some s |}).
  { subst w'. rewrite student_enroll_unfold by assumption.
    now rewrite Hget, Hnot', Hfull. }
  rewrite Hw'. clear Hw' w'.
  set (st' := add_enrollment st (s_user_id s) course_id).
  set (e := Enrollment.mk (new_enrollment_id st) (s_user_id s) course_id).
  assert (Hen : enrolled_in st' (s_user_id s) course_id).
  { exists e. split; [|split; reflexivity].
    unfold st', add_enrollment. cbn [enrollments set_enrollments].
    apply in_or_app. right. now left. }
  split.
  - destruct (student_courses_rendered st' s Hrole) as (rows' & Hrows & Hc).
    + intros e' He'. apply In_enrollments_by_user in He'.
      destruct He' as [He' _].
      unfold st', add_enrollment in He'. cbn [enrollments set_enrollments] in He'.
      apply in_app_or in He'.
      change (Course_get st' (Enrollment.course_id e'))
        with (Course_get st (Enrollment.course_id e')).
      destruct He' as [He'|[<-|[]]].
      * apply Hcfk in He'. apply in_map_iff in He'.
        destruct He' as [c [Hid Hc]]. unfold Course_get. intros Hnone.
        apply (find_none _ _ Hnone) in Hc. lia.
      * cbn [Enrollment.course_id]. congruence.
    + assert (Hin : In e (enrollments_by_user st' (s_user_id s))).
      { apply In_enrollments_by_user. split; [|reflexivity].
        unfold st', add_enrollment. cbn [enrollments set_enrollments].
        apply in_or_app. right. now left. }
      destruct (Forall2_in_left _ _ _ _ Hc Hin) as [r [Hr Hentry]].
      exists rows', r. split; [exact Hrows|]. split; [assumption|].
      unfold student_course_entry in Hentry.
      change (Course_get st' (Enrollment.course_id e))
        with (Course_get st course_id) in Hentry.
      rewrite Hget in Hentry. injection Hentry as <-.
      cbn [StudentCourse.id StudentCourse.grade StudentCourse.enrolled].
      apply Course_get_id in Hget. destruct Hget as [_ Hid].
      split; [assumption|]. split.
      * rewrite Enrollment_grade_first. cbn [Enrollment.id e].
        unfold st'. now rewrite no_grade_for_new_enrollment.
      * unfold st'. rewrite count_add_enrollment, Hid, Z.eqb_refl.
        reflexivity.
  - unfold student_add. rewrite (gated_page "student") by assumption.
    cbn [db]. eexists. split; [reflexivity|].
    intros r Hr Hid. apply in_map_iff in Hr. destruct Hr as [c [<- Hc]].
    unfold available_course_entry in *.
    cbn [AvailableCourse.id AvailableCourse.is_enrolled] in *.
    rewrite enrolled_course_ids_member, Hid. now apply is_enrolled_true.
Qed.

Lemma enrolled_course_is_listed_witness :
  (s_role (mk_session 1 "A" "student") = "student"
   /\ Course_get scenario_store 1 = Some (Course.mk 1 "X" "CS" 1)
   /\ ~ enrolled_in scenario_store 1 1
   /\ get_enrollment_count scenario_store (Course.mk 1 "X" "CS" 1) < 1
   /\ enrollments_reference_courses scenario_store
   /\ grades_reference_enrollments scenario_store)
  /\ exists rows r,
       student_courses
         (snd (student_enroll 1 (post [])
                 {| db := scenario_store; sess := session_A |}))
       = rendered "student_courses.html" rows
       /\ In r rows
       /\ StudentCourse.id r = 1
       /\ StudentCourse.grade r = None
       /\ StudentCourse.enrolled r = 0 + 1.
Proof.
  assert (Hnot : ~ enrolled_in scenario_store 1 1)
    by (intros [e [[] _]]).
  assert (Hcfk : enrollments_reference_courses scenario_store)
    by (intros e []).
  assert (Hgfk : grades_reference_enrollments scenario_store)
    by (intros g []).
  split; [repeat split; assumption|].
  destruct (enrolled_course_is_listed (mk_session 1 "A" "student")
              scenario_store 1 (Course.mk 1 "X" "CS" 1) (post [])
              eq_refl eq_refl Hnot eq_refl Hcfk Hgfk) as [H _].
  exact H.
Defined.

(** ** The teacher's pages *)


Lemma User_get_some (st : store) (user_id : Z) :
  In user_id (map User.id (users st)) ->
  exists u, User_get st user_id = Some u /\ User.id u = user_id.
Proof.
  intros Hin. apply in_map_iff in Hin. destruct Hin as [u [Hid Hu]].
  unfold User_get.
  destruct (find (fun u' => User.id u' =? user_id) (users st)) as [u'|] eqn:Hf.
  - exists u'. split; [reflexivity|]. apply find_some in Hf. lia.
  - apply (find_none _ _ Hf) in Hu. lia.
Qed.

Lemma Course_get_some (st : store) (course_id : Z) :
  In course_id (map Course.id (courses st)) ->
  exists c, Course_get st course_id = Some c.
Proof.
  intros Hin. apply in_map_iff in Hin. destruct Hin as [c [Hid Hc]].
  unfold Course_get.
  destruct (find (fun c' => Course.id c' =? course_id) (courses st))
    as [c'|] eqn:Hf.
  - now exists c'.
  - apply (find_none _ _ Hf) in Hc. lia.
Qed.

Lemma student_grade_entry_some (st : store) (e : Enrollment.t)
    (r : StudentGrade.t) :
  student_grade_entry st e = Some r ->
  StudentGrade.enrollment_id r = Enrollment.id e
  /\ StudentGrade.student_id r = Enrollment.user_id e
  /\ StudentGrade.grade r
     = option_map Grade.grade_value (Enrollment_grade st e)
  /\ StudentGrade.grade_id r = option_map Grade.id (Enrollment_grade st e).
Proof.
  unfold student_grade_entry.
  destruct (User_get st (Enrollment.user_id e)) as [u|] eqn:Hu;
    [|discriminate].
  intros [= <-]. simpl. unfold User_get in Hu. apply find_some in Hu.
  repeat split. lia.
Qed.

Lemma teacher_course_detail_rendered (st : store) (s : session_data)
    (course_id : Z) (course : Course.t) :
  s_role s = "teacher" ->
  teaches st (s_user_id s) course_id ->
  Course_get st course_id = Some course ->
  (forall e, In e (enrollments_by_course st course_id) ->
             In (Enrollment.user_id e) (map User.id (users st))) ->
  exists rows,
    teacher_course_detail course_id {| db := st; sess := Some s |}
    = rendered "teacher_course_detail.html" (course, rows)
    /\ Forall2 (fun e r => student_grade_entry st e = Some r)
               (enrollments_by_course st course_id) rows.
Proof.
  intros Hrole Hteach Hget Hfk.
  unfold teacher_course_detail. rewrite (gated_page "teacher") by assumption.
  cbn [db]. apply teaches_first in Hteach.
  destruct (first (teacher_courses_by st (s_user_id s) course_id));
    [|congruence].
  rewrite Hget.
  destruct (collect (student_grade_entry st)
              (enrollments_by_course st course_id)) as [rows|] eqn:Hc.
  - exists rows. split; [reflexivity|]. now apply collect_some.
  - exfalso. apply collect_none in Hc. destruct Hc as [e [Hin Hn]].
    destruct (User_get_some st _ (Hfk e Hin)) as [u [Hu _]].
    unfold student_grade_entry in Hn. rewrite Hu in Hn. discriminate.
Qed.



Lemma Enrollment_grade_upsert (st : store) (e : Enrollment.t) (v : float) :
  exists g, Enrollment_grade (upsert_grade st e v) e = Some g
            /\ Grade.grade_value g = v.
Proof.
  unfold upsert_grade.
  destruct (Enrollment_grade st e) as [g0|] eqn:Hg.
  - exists (overwritten g0 v). split; [|reflexivity].
    now apply Enrollment_grade_update.
  - eexists. rewrite Enrollment_grade_first, grades_of_add.
    rewrite (Enrollment_grade_none _ _ Hg), Z.eqb_refl.
    split; reflexivity.
Qed.

(** X7. After a grade edit that was answered with the success reply, the
    teacher's detail page of the course shows, in the entry of that
    enrollment, the submitted value as the column keeps it (the value
    itself, +0.0 for -0.0), and so does the course page of the enrolled
    student.  The enrollments are assumed to reference existing users and
    courses. *)
Theorem graded_value_is_shown (float_of_str : string -> option float)
    (s : session_data) (st : store) (enrollment_id : Z) (e : Enrollment.t)
    (req : request) (v : float) :
  s_role s = "teacher" ->
  Enrollment_get st enrollment_id = Some e ->
  teaches st (s_user_id s) (Enrollment.course_id e) ->
  form_grade float_of_str req = Some v ->
  enrollments_reference_users st ->
  enrollments_reference_courses st ->
  let result :=
    teacher_edit_grade float_of_str enrollment_id req
      {| db := st; sess := Some s |} in
  let w' := snd result in
  fst result = reply_grade_updated (Enrollment.course_id e) ->
  exists stored,
    stored_grade_value v = Some stored
    /\ (stored = v \/ (v = S754_zero true /\ stored = S754_zero false))
    /\ (exists course rows r,
          teacher_course_detail (Enrollment.course_id e) w'
          = rendered "teacher_course_detail.html" (course, rows)
          /\ In r rows
          /\ StudentGrade.enrollment_id r = enrollment_id
          /\ StudentGrade.grade r = Some stored)
    /\ (forall u : session_data,
          s_role u = "student" ->
          s_user_id u = Enrollment.user_id e ->
          exists rows r,
            student_courses {| db := db w'; sess := Some u |}
            = rendered "student_courses.html" rows
            /\ In r rows
            /\ StudentCourse.id r = Enrollment.course_id e
            /\ StudentCourse.grade r = Some stored).
Proof.
  intros Hrole Hget Hteach Hv Hufk Hcfk result w' Hok.
  destruct (teacher_edit_grade_success float_of_str s st enrollment_id e req
              v Hrole Hget Hteach Hv Hok)
    as (_ & _ & stored & Hstored & Hres).
  subst w' result. rewrite Hres. cbn [snd db]. clear Hok Hres.
  exists stored. split; [assumption|].
  split; [apply (stored_grade_value_some v stored Hstored)|].
  set (st' := upsert_grade st e stored).
  destruct (upsert_grade_other_tables st e stored) as (Hus & Hcs & Hen & Htc).
  fold st' in Hus, Hcs, Hen, Htc.
  destruct (Enrollment_get_id _ _ _ Hget) as [Hin Hid].
  destruct (Enrollment_grade_upsert st e stored) as (g & Hg & Hval).
  fold st' in Hg.
  destruct (Course_get_some st _ (Hcfk e Hin)) as [course Hcourse].
  assert (Hcourse' : forall c, Course_get st' c = Course_get st c).
  { intros c. unfold Course_get. now rewrite Hcs. }
  split.
  - destruct (teacher_course_detail_rendered st' s (Enrollment.course_id e)
                course Hrole) as (rows & Hrows & Hall).
    + unfold teaches in *. now rewrite Htc.
    + now rewrite Hcourse'.
    + intros e' He'. unfold enrollments_by_course in He'.
      rewrite Hen in He'. apply filter_In in He'. rewrite Hus.
      apply Hufk, He'.
    + assert (Hin' : In e (enrollments_by_course st'
                             (Enrollment.course_id e))).
      { unfold enrollments_by_course. rewrite Hen. apply filter_In.
        split; [assumption|apply Z.eqb_refl]. }
      destruct (Forall2_in_left _ _ _ _ Hall Hin') as [r [Hr Hentry]].
      apply student_grade_entry_some in Hentry.
      destruct Hentry as (Hrid & _ & Hgrade & _).
      exists course, rows, r. split; [exact Hrows|]. split; [assumption|].
      split; [congruence|]. rewrite Hgrade, Hg. simpl. now rewrite Hval.
  - intros u Hurole Huid.
    assert (Hown : forall e', In e' (enrollments_by_user st' (s_user_id u))
                              <-> In e' (enrollments st)
                                  /\ Enrollment.user_id e' = s_user_id u).
    { intros e'. rewrite In_enrollments_by_user. now rewrite Hen. }
    destruct (student_courses_rendered st' u Hurole) as (rows & Hrows & Hall).
    + intros e' He'. apply Hown in He'. destruct He' as [He' _].
      rewrite Hcourse'.
      destruct (Course_get_some st _ (Hcfk e' He')) as [c Hc]. congruence.
    + assert (Hin' : In e (enrollments_by_user st' (s_user_id u))).
      { apply Hown. split; [assumption|]. now rewrite Huid. }
      destruct (Forall2_in_left _ _ _ _ Hall Hin') as [r [Hr Hentry]].
      apply student_course_entry_some in Hentry.
      destruct Hentry as (Hrid & Hgrade & _).
      exists rows, r. split; [exact Hrows|]. split; [assumption|].
      split; [assumption|]. rewrite Hgrade, Hg. simpl. now rewrite Hval.
Qed.

Lemma sample_store_user_fk : enrollments_reference_users sample_store.
Proof.
  intros e He. vm_compute in He.
  destruct He as [<-|[<-|[<-|[]]]]; simpl; auto.
Qed.

Lemma sample_store_course_fk : enrollments_reference_courses sample_store.
Proof. exact (enrollment_course_fk _ sample_store_constraints). Qed.

Lemma graded_value_is_shown_witness :
  (s_role (mk_session 4 "teacher1" "teacher") = "teacher"
   /\ Enrollment_get sample_store 3 = Some (Enrollment.mk 3 3 1)
   /\ teaches sample_store 4 1
   /\ form_grade literal_float_of_str (post [("grade", "100")])
      = Some float_100
   /\ enrollments_reference_users sample_store
   /\ enrollments_reference_courses sample_store
   /\ fst (teacher_edit_grade literal_float_of_str 3
             (post [("grade", "100")])
             {| db := sample_store; sess := teacher1_session |})
      = reply_grade_updated 1)
  /\ exists stored rows r,
       stored_grade_value float_100 = Some stored
       /\ student_courses
            {| db := db (snd (teacher_edit_grade literal_float_of_str 3
                                (post [("grade", "100")])
                                {| db := sample_store;
                                   sess := teacher1_session |}));
               sess := Some (mk_session 3 "student2" "student") |}
          = rendered "student_courses.html" rows
       /\ In r rows
       /\ StudentCourse.id r = 1
       /\ StudentCourse.grade r = Some stored.
Proof.
  assert (Ht : teaches sample_store 4 1).
  { exists (TeacherCourse.mk 1 4 1). simpl. auto. }
  split.
  - split; [reflexivity|]. split; [reflexivity|]. split; [exact Ht|].
    split; [reflexivity|].
    split; [apply sample_store_user_fk|].
    split; [apply sample_store_course_fk|reflexivity].
  - destruct (graded_value_is_shown literal_float_of_str
                (mk_session 4 "teacher1" "teacher") sample_store 3
                (Enrollment.mk 3 3 1) (post [("grade", "100")]) float_100
                eq_refl eq_refl Ht eq_refl
                sample_store_user_fk sample_store_course_fk eq_refl)
      as (stored & Hstored & _ & _ & H).
    destruct (H (mk_session 3 "student2" "student") eq_refl eq_refl)
      as (rows & r & Hr).
    exists stored, rows, r. split; [exact Hstored|exact Hr].
Defined.






(** ** Who can write *)

Lemma post_only_writes (f : view) (req : request) (w : world) :
  db (snd (post_only f req w)) <> db w ->
  method req = "POST" /\ db (snd (f req w)) <> db w.
Proof.
  unfold post_only.
  destruct (String.eqb (method req) "POST") eqn:Hm; simpl.
  - intros H. split; [now apply String.eqb_eq|assumption].
  - intros H. now contradiction H.
Qed.

Lemma int_rule_writes (id : Z) (f : view) (req : request) (w : world) :
  db (snd (int_rule id f req w)) <> db w ->
  db (snd (f req w)) <> db w.
Proof.
  unfold int_rule. destruct (id <? 0); simpl; [|auto].
  intros H. now contradiction H.
Qed.

Lemma gated_writes (role : string) (f : session_data -> view)
    (req : request) (w : world) :
  db (snd (login_required (role_required [role] f) req w)) <> db w ->
  exists s, sess w = Some s /\ s_role s = role
            /\ db (snd (f s req w)) <> db w.
Proof.
  rewrite login_required_check. unfold login_check.
  destruct (sess w) as [s|] eqn:Hs; simpl;
    [|intros H; now contradiction H].
  rewrite role_required_check, Hs. unfold role_check. simpl.
  destruct (String.eqb (s_role s) role) eqn:Hr; simpl.
  - intros H. exists s. apply String.eqb_eq in Hr. auto.
  - intros H. now contradiction H.
Qed.

(** X9. A request to one of the application's own rules ([login],
    [logout], [student_enroll], [student_drop], [teacher_edit_grade])
    changes the database only if it is a POST, carries the session of a
    logged-in user, and either targets [student_enroll] or [student_drop]
    with the role 'student' or targets [teacher_edit_grade] with the role
    'teacher'.  On these rules anonymous requests, other methods and other
    roles never write, and neither do [login] and [logout].  The views of
    Flask-Admin, through which an 'admin' session writes, are not rules of
    the application and are not covered. *)
Theorem writes_need_post_and_role
    (check_password_hash : string -> string -> bool)
    (float_of_str : string -> option float) (st : store) (c : call) :
  db (snd (serve check_password_hash float_of_str st c)) <> st ->
  method (sent c) = "POST"
  /\ exists s,
       cookie c = Some s
       /\ ((s_role s = "student"
            /\ exists course_id,
                 target c = r_student_enroll course_id
                 \/ target c = r_student_drop course_id)
           \/ (s_role s = "teacher"
               /\ exists enrollment_id,
                    target c = r_teacher_edit_grade enrollment_id)).
Proof.
  destruct c as [s0 r req]. unfold serve. cbn [target sent cookie].
  destruct r as [| |cid|cid|eid]; cbn [dispatch].
  - intros H. exfalso. apply H. unfold login.
    repeat (case_split; simpl; try reflexivity).
  - intros H. exfalso. apply H.
    destruct (is_get (method req)); reflexivity.
  - intros H. apply (int_rule_writes _ _ req {| db := st; sess := s0 |}) in H.
    apply (post_only_writes _ req {| db := st; sess := s0 |}) in H.
    destruct H as [Hm H]. split; [assumption|].
    apply gated_writes in H. destruct H as (s & Hs & Hrole & _).
    exists s. split; [assumption|]. left. split; [assumption|].
    exists cid. now left.
  - intros H. apply (int_rule_writes _ _ req {| db := st; sess := s0 |}) in H.
    apply (post_only_writes _ req {| db := st; sess := s0 |}) in H.
    destruct H as [Hm H]. split; [assumption|].
    apply gated_writes in H. destruct H as (s & Hs & Hrole & _).
    exists s. split; [assumption|]. left. split; [assumption|].
    exists cid. now right.
  - intros H. apply (int_rule_writes _ _ req {| db := st; sess := s0 |}) in H.
    apply (post_only_writes _ req {| db := st; sess := s0 |}) in H.
    destruct H as [Hm H]. split; [assumption|].
    apply gated_writes in H. destruct H as (s & Hs & Hrole & _).
    exists s. split; [assumption|]. right. split; [assumption|].
    now exists eid.
Qed.

Lemma writes_need_post_and_role_witness :
  db (snd (scenario_serve scenario_store
             (mk_call session_A (r_student_enroll 1) (post []))))
  <> scenario_store
  /\ method (sent (mk_call session_A (r_student_enroll 1) (post [])))
     = "POST".
Proof.
  assert (H : db (snd (scenario_serve scenario_store
                         (mk_call session_A (r_student_enroll 1) (post []))))
              <> scenario_store).
  { intros Heq. apply (f_equal enrollments) in Heq. vm_compute in Heq.
    discriminate Heq. }
  split; [exact H|].
  exact (proj1 (writes_need_post_and_role plain_check_password_hash
                  literal_float_of_str scenario_store
                  (mk_call session_A (r_student_enroll 1) (post [])) H)).
Defined.

(** ** What a write leaves alone *)

Lemma student_enroll_db (st : store) (s : session_data) (course_id : Z)
    (req : request) :
  let st' := db (snd (student_enroll course_id req
                        {| db := st; sess := Some s |})) in
  st' = st \/ st' = add_enrollment st (s_user_id s) course_id.
Proof.
  cbv zeta. unfold student_enroll.
  rewrite login_required_check, role_required_check.
  unfold login_check, role_check. cbn [sess logged_in negb].
  destruct (negb (existsb (String.eqb (s_role s)) ["student"]));
    simpl; auto.
  repeat (case_split; simpl; auto).
Qed.

Lemma student_drop_db (st : store) (s : session_data) (course_id : Z)
    (req : request) :
  let st' := db (snd (student_drop course_id req
                        {| db := st; sess := Some s |})) in
  st' = st
  \/ exists e,
       first (enrollments_by_user_course st (s_user_id s) course_id) = Some e
       /\ st' = delete_enrollment st e.
Proof.
  cbv zeta. unfold student_drop.
  rewrite login_required_check, role_required_check.
  unfold login_check, role_check. cbn [sess logged_in negb].
  destruct (negb (existsb (String.eqb (s_role s)) ["student"]));
    simpl; auto.
  repeat (case_split; simpl; auto).
  right. eexists. split; reflexivity.
Qed.

(** X10. Whatever a logged-in user sends to [student_enroll] or
    [student_drop], the enrollment rows of every other user stay as they
    are (enrollment ids being a primary key), and in a database that
    satisfies its constraints so do the grades of every other user's
    enrollments. *)
Theorem student_requests_touch_own_rows (st : store) (s : session_data)
    (course_id : Z) (req : request) (st' : store) :
  st' = db (snd (student_enroll course_id req {| db := st; sess := Some s |}))
  \/ st' = db (snd (student_drop course_id req
                      {| db := st; sess := Some s |})) ->
  NoDup (map Enrollment.id (enrollments st)) ->
  (forall e, Enrollment.user_id e <> s_user_id s ->
             (In e (enrollments st') <-> In e (enrollments st)))
  /\ (constraints st ->
      forall g e,
        In e (enrollments st) ->
        Grade.enrollment_id g = Enrollment.id e ->
        Enrollment.user_id e <> s_user_id s ->
        (In g (grades st') <-> In g (grades st))).
Proof.
  intros [Hst'|Hst'] Hpk.
  - pose proof (student_enroll_db st s course_id req) as H.
    cbv zeta in H. rewrite <- Hst' in H.
    destruct H as [->| ->]; [split; intros; reflexivity|].
    split; [|intros; reflexivity].
    intros e Hother. unfold add_enrollment. cbn [enrollments set_enrollments].
    rewrite in_app_iff. simpl. split; [|tauto].
    intros [H|[<-|[]]]; [assumption|]. now contradiction Hother.
  - pose proof (student_drop_db st s course_id req) as H.
    cbv zeta in H. rewrite <- Hst' in H.
    destruct H as [->|[e0 [Hf ->]]]; [split; intros; reflexivity|].
    destruct (first_by_user_course _ _ _ _ Hf) as (Hin0 & Hu0 & _).
    split.
    + intros e Hother. rewrite In_delete_enrollments by assumption.
      split; [tauto|]. intros H. split; [assumption|]. congruence.
    + intros Hc g e He Hge Hother.
      rewrite In_delete_grades; [|apply Hc|apply Hc].
      split; [tauto|]. intros H. split; [assumption|].
      rewrite Hge. intros Hid.
      assert (e = e0) by
        (apply (NoDup_map_inj_in Enrollment.id (enrollments st)); auto).
      congruence.
Qed.

Lemma student_requests_touch_own_rows_witness :
  NoDup (map Enrollment.id (enrollments sample_store))
  /\ (In (Enrollment.mk 3 3 1)
         (enrollments
            (db (snd (student_drop 1 (post [])
                        {| db := sample_store; sess := student1_session |}))))
      <-> In (Enrollment.mk 3 3 1) (enrollments sample_store)).
Proof.
  assert (Hpk : NoDup (map Enrollment.id (enrollments sample_store)))
    by apply sample_store_constraints.
  split; [exact Hpk|].
  destruct (student_requests_touch_own_rows sample_store
              (mk_session 2 "student1" "student") 1 (post []) _
              (or_intror eq_refl) Hpk) as [H _].
  apply H. discriminate.
Defined.

Lemma teacher_edit_grade_db (float_of_str : string -> option float)
    (st : store) (s0 : session) (enrollment_id : Z) (req : request) :
  let st' := db (snd (teacher_edit_grade float_of_str enrollment_id req
                        {| db := st; sess := s0 |})) in
  st' = st
  \/ exists e v,
       Enrollment_get st enrollment_id = Some e /\ st' = upsert_grade st e v.
Proof.
  cbv zeta. unfold teacher_edit_grade.
  rewrite login_required_check, role_required_check.
  unfold login_check, role_check. cbn [sess].
  destruct s0 as [s|]; simpl; auto.
  destruct (negb (String.eqb (s_role s) "teacher" || false)); simpl; auto.
  destruct (Enrollment_get st enrollment_id) as [e|] eqn:Hget; simpl; auto.
  destruct (Enrollment_get_id _ _ _ Hget) as [_ Hid].
  repeat (case_split; simpl; auto); right; eexists; eexists;
    (split; [reflexivity|]); unfold upsert_grade, set_db; simpl;
    match goal with H : Enrollment_grade _ _ = _ |- _ => rewrite H end;
    rewrite ?Hid; reflexivity.
Qed.

Lemma upsert_grade_others (st : store) (e : Enrollment.t) (v : float)
    (g : Grade.t) :
  NoDup (map Grade.id (grades st)) ->
  Grade.enrollment_id g <> Enrollment.id e ->
  In g (grades (upsert_grade st e v)) <-> In g (grades st).
Proof.
  intros Hpk Hother. unfold upsert_grade.
  destruct (Enrollment_grade st e) as [g0|] eqn:Hg0.
  - unfold Enrollment_grade in Hg0. apply find_some in Hg0.
    destruct Hg0 as [Hin0 Heid0]. split.
    + intros Hin. unfold update_grade_value in Hin.
      cbn [grades set_grades] in Hin. apply in_map_iff in Hin.
      destruct Hin as [x [Hx Hxin]].
      destruct (Grade.id x =? Grade.id g0) eqn:Heq; [|now subst x].
      exfalso. apply Hother.
      assert (x = g0) as ->.
      { apply (NoDup_map_inj_in Grade.id (grades st)); auto. lia. }
      subst g. simpl. lia.
    + intros Hin. apply update_grade_value_others; [|assumption].
      intros Hid. apply Hother.
      assert (g = g0) as ->
        by (apply (NoDup_map_inj_in Grade.id (grades st)); auto).
      lia.
  - unfold add_grade. cbn [grades set_grades]. rewrite in_app_iff. simpl.
    split; [|tauto]. intros [H|[<-|[]]]; [assumption|].
    now contradiction Hother.
Qed.

(** X11. Whatever anybody sends to [teacher_edit_grade], the users,
    courses, enrollments and teacher assignments stay as they are, at most
    one grade row is added and none is removed, and (grade ids being a
    primary key) the grade rows of every other enrollment stay as they
    are. *)
Theorem teacher_edit_grade_frame (float_of_str : string -> option float)
    (st : store) (s0 : session) (enrollment_id : Z) (req : request) :
  let st' := db (snd (teacher_edit_grade float_of_str enrollment_id req
                        {| db := st; sess := s0 |})) in
  users st' = users st
  /\ courses st' = courses st
  /\ enrollments st' = enrollments st
  /\ teacher_courses st' = teacher_courses st
  /\ (List.length (grades st) <= List.length (grades st')
      <= List.length (grades st) + 1)%nat
  /\ (NoDup (map Grade.id (grades st)) ->
      forall g, Grade.enrollment_id g <> enrollment_id ->
                (In g (grades st') <-> In g (grades st))).
Proof.
  intros st'.
  destruct (teacher_edit_grade_db float_of_str st s0 enrollment_id req)
    as [H|(e & v & Hget & H)]; fold st' in H; rewrite H.
  - repeat split; try reflexivity; try lia; auto.
  - destruct (upsert_grade_other_tables st e v) as (Hus & Hcs & Hen & Htc).
    destruct (Enrollment_get_id _ _ _ Hget) as [_ Hid].
    repeat (split; [assumption|]). split.
    + unfold upsert_grade. destruct (Enrollment_grade st e).
      * unfold update_grade_value. cbn [grades set_grades].
        rewrite length_map. lia.
      * unfold add_grade. cbn [grades set_grades].
        rewrite length_app. simpl. lia.
    + intros Hpk g Hother. apply upsert_grade_others; [assumption|].
      now rewrite Hid.
Qed.

Lemma teacher_edit_grade_frame_witness :
  NoDup (map Grade.id (grades sample_store))
  /\ (In (Grade.mk 2 2 float_92_0)
         (grades
            (db (snd (teacher_edit_grade literal_float_of_str 1
                        (post [("grade", "0")])
                        {| db := sample_store; sess := teacher1_session |}))))
      <-> In (Grade.mk 2 2 float_92_0) (grades sample_store)).
Proof.
  assert (Hpk : NoDup (map Grade.id (grades sample_store)))
    by apply sample_store_constraints.
  split; [exact Hpk|].
  destruct (teacher_edit_grade_frame literal_float_of_str sample_store
              teacher1_session 1 (post [("grade", "0")]))
    as (_ & _ & _ & _ & _ & H).
  apply (H Hpk). discriminate.
Defined.

(** ** Seats taken and given back *)

Lemma filter_other_ids (l : list Enrollment.t) (i : Z) :
  ~ In i (map Enrollment.id l) ->
  filter (fun e' => negb (Enrollment.id e' =? i)) l = l.
Proof.
  induction l as [|b l IH]; simpl; intros Hnin; [reflexivity|].
  destruct (Enrollment.id b =? i) eqn:Heq.
  - exfalso. apply Hnin. left. lia.
  - simpl. f_equal. apply IH. intros H. apply Hnin. now right.
Qed.

Lemma count_after_delete (l : list Enrollment.t) (e : Enrollment.t)
    (p : Enrollment.t -> bool) :
  NoDup (map Enrollment.id l) -> In e l ->
  (List.length
     (filter p (filter (fun e' => negb (Z.eqb (Enrollment.id e')
                                               (Enrollment.id e))) l))
   + (if p e then 1 else 0)
   = List.length (filter p l))%nat.
Proof.
  induction l as [|a l IH]; simpl; intros Hnd Hin; [contradiction|].
  inversion Hnd as [|? ? Hnin Hnd']; subst.
  destruct Hin as [->|Hin].
  - rewrite Z.eqb_refl. simpl.
    rewrite (filter_other_ids l _ Hnin). destruct (p e); simpl; lia.
  - destruct (Enrollment.id a =? Enrollment.id e) eqn:Heq.
    + exfalso. apply Hnin. apply Z.eqb_eq in Heq. rewrite Heq.
      now apply in_map.
    + simpl. specialize (IH Hnd' Hin). destruct (p a); simpl; lia.
Qed.

(** X12. A successful [student_enroll] raises the enrollment count of the
    course by exactly one and a successful [student_drop] lowers it by
    exactly one (enrollment ids being a primary key); the counts of courses
    with another id do not move. *)
Theorem enrollment_count_accounting (st : store) (s : session_data)
    (course_id : Z) (req : request) :
  s_role s = "student" ->
  let w := {| db := st; sess := Some s |} in
  (is_error (fst (student_enroll course_id req w)) = false ->
   forall c,
     get_enrollment_count (db (snd (student_enroll course_id req w))) c
     = get_enrollment_count st c
       + (if Course.id c =? course_id then 1 else 0))
  /\ (is_error (fst (student_drop course_id req w)) = false ->
      NoDup (map Enrollment.id (enrollments st)) ->
      forall c,
        get_enrollment_count (db (snd (student_drop course_id req w))) c
        = get_enrollment_count st c
          - (if Course.id c =? course_id then 1 else 0)).
Proof.
  intros Hrole w. subst w. split.
  - rewrite student_enroll_unfold by assumption.
    destruct (Course_get st course_id) as [course|]; [|discriminate].
    destruct (is_enrolled st (s_user_id s) course_id); [discriminate|].
    destruct (is_full st course); [discriminate|].
    intros _ c. cbn [snd db]. rewrite count_add_enrollment.
    now rewrite (Z.eqb_sym course_id).
  - rewrite student_drop_unfold by assumption.
    destruct (first (enrollments_by_user_course st (s_user_id s) course_id))
      as [e|] eqn:Hf; [|discriminate].
    destruct (Course_get st (Enrollment.course_id e)); [|discriminate].
    intros _ Hpk c. cbn [snd db].
    destruct (first_by_user_course _ _ _ _ Hf) as (Hin & _ & Hc).
    unfold get_enrollment_count, Course_enrollments, delete_enrollment.
    cbn [enrollments].
    pose proof (count_after_delete (enrollments st) e
                  (fun e' => Enrollment.course_id e' =? Course.id c)
                  Hpk Hin) as Hcount.
    cbv beta in Hcount. rewrite Hc in Hcount.
    rewrite (Z.eqb_sym (Course.id c)).
    destruct (course_id =? Course.id c); lia.
Qed.

Lemma enrollment_count_accounting_witness :
  (s_role (mk_session 2 "student1" "student") = "student"
   /\ is_error (fst (student_drop 1 (post [])
                       {| db := sample_store; sess := student1_session |}))
      = false
   /\ NoDup (map Enrollment.id (enrollments sample_store)))
  /\ get_enrollment_count
       (db (snd (student_drop 1 (post [])
                   {| db := sample_store; sess := student1_session |})))
       (Course.mk 1 "Introduction to Computer Science" "CS" 30)
     = 2 - 1.
Proof.
  assert (Hpk : NoDup (map Enrollment.id (enrollments sample_store)))
    by apply sample_store_constraints.
  split; [split; [reflexivity|split; [reflexivity|exact Hpk]]|].
  destruct (enrollment_count_accounting sample_store
              (mk_session 2 "student1" "student") 1 (post []) eq_refl)
    as [_ H].
  exact (H eq_refl Hpk
           (Course.mk 1 "Introduction to Computer Science" "CS" 30)).
Defined.

(** ** Where sessions come from *)




(** ** Seeding *)

(** X14. [init_db] leaves a database with at least one user untouched, and
    on a database without users it adds users, so running it a second time
    changes nothing. *)
Theorem init_db_idempotent (generate_password_hash : string -> string)
    (st : store) :
  (users st <> [] -> init_db generate_password_hash st = st)
  /\ (users st = [] -> users (init_db generate_password_hash st) <> [])
  /\ init_db generate_password_hash (init_db generate_password_hash st)
     = init_db generate_password_hash st.
Proof.
  assert (Hguard : forall st0, users st0 <> [] ->
                     init_db generate_password_hash st0 = st0).
  { intros st0 Hne. unfold init_db.
    destruct (users st0); [congruence|reflexivity]. }
  assert (Hadds : users st = [] ->
                  users (init_db generate_password_hash st) <> []).
  { intros Hempty. unfold init_db. rewrite Hempty.
    cbn. rewrite Hempty. discriminate. }
  split; [apply Hguard|]. split; [exact Hadds|].
  destruct (users st) as [|u us] eqn:Hus.
  - apply Hguard, Hadds. reflexivity.
  - assert (Hsame : init_db generate_password_hash st = st).
    { apply Hguard. rewrite Hus. discriminate. }
    rewrite Hsame. exact Hsame.
Qed.

(** ** Home page and admin panel *)

(** X15. [index] sends a logged-in student to the student course page, a
    logged-in teacher to the teacher course page and a logged-in admin to
    the admin index, each a page whose own check admits that session;
    everybody else is sent to the login page.  A role-gated view that turns
    a logged-in user away redirects to [index], so such a user reaches an
    admitting page or the login page in two redirects. *)
Theorem index_target_admits (s : session) :
  match index s with
  | home_admin_index => is_accessible s = true
  | home_endpoint ep_student_courses =>
      exists d, role_check ["student"] s = inr d
  | home_endpoint ep_teacher_courses =>
      exists d, role_check ["teacher"] s = inr d
  | home_endpoint ep_login =>
      logged_in s = false
      \/ (role_is s "student" = false /\ role_is s "teacher" = false
          /\ role_is s "admin" = false)
  | home_endpoint _ => False
  end
  /\ (forall allowed_roles r,
        logged_in s = true ->
        role_check allowed_roles s = inl r ->
        body r = redirect ep_index).
Proof.
  split.
  - unfold index, is_accessible, role_is, session_role, role_check.
    destruct s as [d|]; simpl; [|now left].
    destruct (String.eqb (s_role d) "student") eqn:Hs; simpl.
    + now exists d.
    + destruct (String.eqb (s_role d) "teacher") eqn:Ht; simpl.
      * now exists d.
      * destruct (String.eqb (s_role d) "admin") eqn:Ha; simpl; auto.
  - intros allowed r Hlogged. unfold role_check.
    destruct s as [d|]; [|discriminate].
    destruct (negb (existsb (String.eqb (s_role d)) allowed));
      [|discriminate].
    intros [= <-]. reflexivity.
Qed.

(** X16. The admin views are accessible exactly to a session whose role is
    'admin'.  When access is denied, [inaccessible_callback] flashes one
    message and redirects an anonymous client to the login page and any
    other client to [index]; the 403 handler [forbidden] redirects to the
    same place, and for a logged-in client on a path under /admin it gives
    the very same reply. *)
Theorem admin_denial_replies (s : session) (path : string) :
  (is_accessible s = true <-> exists d, s = Some d /\ s_role d = "admin")
  /\ (is_accessible s = false ->
      List.length (flashed (inaccessible_callback s)) = 1%nat
      /\ is_error (inaccessible_callback s) = true
      /\ body (inaccessible_callback s)
         = (if logged_in s then redirect ep_index else redirect ep_login)
      /\ body (forbidden path s) = body (inaccessible_callback s)
      /\ (logged_in s = true -> String.prefix "/admin" path = true ->
          forbidden path s = inaccessible_callback s)).
Proof.
  unfold is_accessible, inaccessible_callback, forbidden, role_is,
         session_role.
  destruct s as [d|]; simpl.
  - destruct (String.eqb (s_role d) "admin") eqn:Ha; simpl.
    + split; [|discriminate]. split; [|reflexivity].
      intros _. exists d. apply String.eqb_eq in Ha. auto.
    + split.
      * split; [discriminate|].
        intros [d' [[= <-] Hrole]]. apply String.eqb_neq in Ha. contradiction.
      * intros _.
        destruct (String.prefix "/admin" path); simpl; repeat split;
          intros; try reflexivity; discriminate.
  - split.
    + split; [discriminate|]. intros [d [Hd _]]. discriminate.
    + intros _. repeat split; intros; try reflexivity; discriminate.
Qed.

Lemma admin_denial_replies_witness :
  is_accessible student1_session = false
  /\ forbidden "/admin/user/" student1_session
     = inaccessible_callback student1_session.
Proof.
  split; [reflexivity|].
  destruct (admin_denial_replies student1_session "/admin/user/")
    as [_ H].
  destruct (H eq_refl) as (_ & _ & _ & _ & H').
  apply H'; reflexivity.
Defined.

Lemma constraints_preserved_witness :
  constraints sample_store
  /\ constraints
       (scenario_run sample_store
          [mk_call student1_session (r_student_drop 1) (post []);
           mk_call teacher1_session (r_teacher_edit_grade 3)
                   (post [("grade", "100")]);
           mk_call student1_session (r_student_enroll 3) (post [])]).
Proof.
  split; [apply sample_store_constraints|].
  exact (constraints_preserved plain_check_password_hash literal_float_of_str
           sample_store _ sample_store_constraints).
Defined.

(** ** Which grades are accepted *)

(** X17. For an authorized teacher and an existing enrollment, a submitted
    grade [v] is answered with the success reply exactly when
    [0 <= v <= 100].  NaN passes the range check, but the commit fails: the
    request ends in a server error and nothing is written.  After a success
    the enrollment's grade row holds the value as the column keeps it: the
    value itself, +0.0 for -0.0. *)
Theorem accepted_grades (float_of_str : string -> option float)
    (s : session_data) (st : store) (enrollment_id : Z) (e : Enrollment.t)
    (req : request) (v : float) :
  s_role s = "teacher" ->
  Enrollment_get st enrollment_id = Some e ->
  teaches st (s_user_id s) (Enrollment.course_id e) ->
  form_grade float_of_str req = Some v ->
  let w := {| db := st; sess := Some s |} in
  let result := teacher_edit_grade float_of_str enrollment_id req w in
  (fst result = reply_grade_updated (Enrollment.course_id e)
   <-> SFleb float_0 v = true /\ SFleb v float_100 = true)
  /\ (v = S754_nan -> result = (reply_500, w))
  /\ (fst result = reply_grade_updated (Enrollment.course_id e) ->
      exists stored g,
        stored_grade_value v = Some stored
        /\ (stored = v \/ (v = S754_zero true /\ stored = S754_zero false))
        /\ Enrollment_grade (db (snd result)) e = Some g
        /\ Grade.grade_value g = stored).
Proof.
  intros Hrole Hget Hteach Hv w result. subst result w.
  split; [|split].
  - split.
    + intros Hok.
      destruct (teacher_edit_grade_success float_of_str s st enrollment_id e
                  req v Hrole Hget Hteach Hv Hok)
        as (Hlo & Hhi & stored & Hstored & _).
      apply float_in_range. repeat split; try assumption.
      apply (stored_grade_value_some v stored Hstored).
    + intros [H0 H100].
      destruct (teacher_edit_grade_in_range float_of_str s st enrollment_id
                  e req v Hrole Hget Hteach Hv H0 H100)
        as (stored & _ & Hres).
      now rewrite Hres.
  - intros ->.
    now rewrite (teacher_edit_grade_value float_of_str s st enrollment_id e
                   req S754_nan).
  - intros Hok.
    destruct (teacher_edit_grade_success float_of_str s st enrollment_id e
                req v Hrole Hget Hteach Hv Hok)
      as (_ & _ & stored & Hstored & Hres).
    rewrite Hres. cbn [snd db].
    destruct (Enrollment_grade_upsert st e stored) as (g & Hg & Hval).
    exists stored, g. split; [assumption|].
    split; [apply (stored_grade_value_some v stored Hstored)|auto].
Qed.

Lemma accepted_grades_witness :
  (s_role (mk_session 4 "teacher1" "teacher") = "teacher"
   /\ Enrollment_get sample_store 1 = Some (Enrollment.mk 1 2 1)
   /\ teaches sample_store 4 1
   /\ form_grade literal_float_of_str (post [("grade", "nan")])
      = Some S754_nan)
  /\ teacher_edit_grade literal_float_of_str 1 (post [("grade", "nan")])
       {| db := sample_store; sess := teacher1_session |}
     = (reply_500, {| db := sample_store; sess := teacher1_session |}).
Proof.
  assert (Ht : teaches sample_store 4 1).
  { exists (TeacherCourse.mk 1 4 1). simpl. auto. }
  split; [split; [reflexivity|split; [reflexivity|split;
                                      [exact Ht|reflexivity]]]|].
  destruct (accepted_grades literal_float_of_str
              (mk_session 4 "teacher1" "teacher") sample_store 1
              (Enrollment.mk 1 2 1) (post [("grade", "nan")]) S754_nan
              eq_refl eq_refl Ht eq_refl) as (_ & H & _).
  apply H. reflexivity.
Defined.

(** ** What a teacher without assignments can tell *)



Lemma init_db_idempotent_witness :
  users empty_store = []
  /\ users (init_db plain_generate_password_hash empty_store) <> [].
Proof.
  split; [reflexivity|].
  destruct (init_db_idempotent plain_generate_password_hash empty_store)
    as (_ & H & _).
  apply H. reflexivity.
Defined.

Lemma index_target_admits_witness :
  index student1_session = home_endpoint ep_student_courses
  /\ exists d, role_check ["student"] student1_session = inr d.
Proof.
  split; [reflexivity|].
  exact (proj1 (index_target_admits student1_session)).
Defined.

(** ** Remarks on the order of listings *)

(** A student who enrolls in course 2 and then in course 1 sees course 1
    first: the enrollments of one user are read through the index of
    [unique_enrollment]. *)
Example own_courses_in_course_order :
  let st := scenario_run scenario_store
              [mk_call session_A (r_student_enroll 2) (post []);
               mk_call session_A (r_student_enroll 1) (post [])] in
  map Enrollment.course_id (enrollments st) = [2; 1]
  /\ map Enrollment.course_id (enrollments_by_user st 1) = [1; 2].
Proof. vm_compute. split; reflexivity. Qed.

(** A negative id matches no rule. *)
Example negative_id_not_found :
  scenario_serve scenario_store
    (mk_call session_A (r_student_enroll (-1)) (post []))
  = (reply_404, {| db := scenario_store; sess := session_A |}).
Proof. reflexivity. Qed.
